(** * XplaneFlightData: turn, VNAV and wind calculators

    A shallow embedding of the three command-line calculators
    [turn_calculator.cpp], [vnav_calculator.cpp] and [wind_calculator.cpp],
    and the properties of their computational core.

    Modelling conventions.
    - Inside the three calculation functions a C++ [double] is a real
      number ([R]): [+ - * /] are the field operations, [std::abs] is
      [Rabs], [std::tan], [std::cos], [std::sin] and [std::atan] are [tan],
      [cos], [sin] and [atan].  Rounding is outside the model.
    - What [std::stod] hands to [main] is a [double] in full: a finite
      value, an infinity or NaN.  The tests of [main] compare as IEEE 754
      does (every comparison with NaN is false).  What IEEE arithmetic and
      the C library compute from arguments that are not all finite is not
      the repository's code: the value printed for each key is then a
      parameter [nonfinite] of the programs, of which nothing is assumed.
    - [std::numbers::pi] is [PI].
    - A record filled in field by field ([TurnData result; result.x = ...])
      is the record built from the values assigned on the path taken.
    - [std::stod] belongs to the C++ standard library: it is a parameter
      [stod] of the programs, returning either the parsed [double] or the
      [what()] text of the exception it throws.
    - Standard output is the list of JSON objects printed, each an ordered
      list of named fields; standard error is the list of lines printed. *)

From Stdlib Require Import Reals Lra Lia ZArith List String Ascii Bool.
From Equations Require Import Equations.
Import ListNotations.

Open Scope R_scope.

(** ** Vocabulary shared by the three programs *)

Module Cli.

(** The result of a call that may throw a [std::exception]. *)
Inductive thrown (A : Type) : Type :=
| Returned (a : A)
| Raised (what : string).
Arguments Returned {A} & a.
Arguments Raised {A} what.

Definition bind {A B : Type} (m : thrown A) (k : A -> thrown B) : thrown B :=
  match m with
  | Returned a => k a
  | Raised w => Raised w
  end.

(** A [double] as [std::stod] returns it and [operator<<] prints it. *)
Inductive double : Type :=
| Finite (x : R)
| PlusInfinity
| MinusInfinity
| NaN.

Coercion Finite : R >-> double.

(** A field value as [print_json] writes it: a number with
    [std::fixed << std::setprecision(2)], or [true]/[false]. *)
Inductive json_value : Type :=
| JNumber (x : double)
| JBool (b : bool).

Definition json_object : Type := list (string * json_value).

Definition keys (o : json_object) : list string := map fst o.

(** What a run of [main] leaves behind. *)
Record outcome : Type := {
  exit_code : Z;
  stdout : list json_object;
  stderr : list string
}.

(** A run of a program whose loops may fail to end. *)
Inductive run : Type :=
| Exits (o : outcome)
| NeverExits.

(** The object printed when the arguments are not all finite: the keys
    of [print_json], each with the value IEEE arithmetic gives it. *)
Definition print_json_nonfinite (json_keys : list string)
    (value : string -> json_value) : json_object :=
  map (fun key => (key, value key)) json_keys.

(** A struct declaration seen as data: each member's name with its
    getter, in declaration order. *)
Definition members (T : Type) : Type := list (string * (T -> json_value)).

Definition render {T : Type} (ms : members T) (t : T) : json_object :=
  map (fun m => (fst m, snd m t)) ms.

(** Comparisons of doubles used as [bool] values. *)
Definition Rlt_bool (x y : R) : bool := if Rlt_dec x y then true else false.
Definition Rle_bool (x y : R) : bool := if Rle_dec x y then true else false.
Definition Rge_bool (x y : R) : bool := if Rge_dec x y then true else false.

(** The comparisons [<], [<=] and [>] of two doubles and [std::abs], as
    IEEE 754 defines them on infinities and NaN. *)
Definition double_lt (a b : double) : bool :=
  match a, b with
  | NaN, _ | _, NaN => false
  | Finite x, Finite y => Rlt_bool x y
  | MinusInfinity, MinusInfinity => false
  | MinusInfinity, _ => true
  | PlusInfinity, _ => false
  | Finite _, PlusInfinity => true
  | Finite _, MinusInfinity => false
  end.

Definition double_le (a b : double) : bool :=
  match a, b with
  | NaN, _ | _, NaN => false
  | Finite x, Finite y => Rle_bool x y
  | MinusInfinity, _ => true
  | PlusInfinity, PlusInfinity => true
  | PlusInfinity, _ => false
  | Finite _, PlusInfinity => true
  | Finite _, MinusInfinity => false
  end.

Definition double_gt (a b : double) : bool := double_lt b a.

Definition double_abs (a : double) : double :=
  match a with
  | Finite x => Finite (Rabs x)
  | PlusInfinity | MinusInfinity => PlusInfinity
  | NaN => NaN
  end.

(** Lowercase snake case: a lowercase letter first, then lowercase
    letters, digits and underscores. *)
Definition is_lower (c : ascii) : bool :=
  let n := nat_of_ascii c in (97 <=? n)%nat && (n <=? 122)%nat.

Definition is_digit (c : ascii) : bool :=
  let n := nat_of_ascii c in (48 <=? n)%nat && (n <=? 57)%nat.

Definition is_snake_char (c : ascii) : bool :=
  is_lower c || is_digit c || Ascii.eqb c "_"%char.

Definition is_snake_case (s : string) : bool :=
  match s with
  | EmptyString => false
  | String c rest => is_lower c && forallb is_snake_char (list_ascii_of_string rest)
  end.

End Cli.

Import Cli.

Notation "x <- m ;; k" := (bind m (fun x => k))
  (at level 61, m at next level, right associativity).

(** ** turn_calculator.cpp *)

Module Turn.

Definition DEG_TO_RAD : R := PI / 180.0.
Definition RAD_TO_DEG : R := 180.0 / PI.
Definition GRAVITY : R := 9.80665.
Definition KTS_TO_MS : R := 0.514444.
Definition NM_TO_FT : R := 6076.12.
Definition STANDARD_RATE : R := 3.0.

Record TurnData : Type := {
  radius_nm : R;
  radius_ft : R;
  turn_rate_dps : R;
  lead_distance_nm : R;
  lead_distance_ft : R;
  time_to_turn_sec : R;
  load_factor : R;
  standard_rate_bank : R
}.

Definition TurnData_members : members TurnData :=
  [ ("radius_nm"%string, fun t => JNumber (radius_nm t));
    ("radius_ft"%string, fun t => JNumber (radius_ft t));
    ("turn_rate_dps"%string, fun t => JNumber (turn_rate_dps t));
    ("lead_distance_nm"%string, fun t => JNumber (lead_distance_nm t));
    ("lead_distance_ft"%string, fun t => JNumber (lead_distance_ft t));
    ("time_to_turn_sec"%string, fun t => JNumber (time_to_turn_sec t));
    ("load_factor"%string, fun t => JNumber (load_factor t));
    ("standard_rate_bank"%string, fun t => JNumber (standard_rate_bank t)) ].

Definition calculate_turn_performance
    (tas_kts bank_deg course_change_deg : R) : TurnData :=
  let v_ms := tas_kts * KTS_TO_MS in
  let phi_rad := bank_deg * DEG_TO_RAD in
  let delta_psi_rad := course_change_deg * DEG_TO_RAD in
  let load_factor' := 1.0 / cos phi_rad in
  let tan_phi := tan phi_rad in
  let omega_std_rad_s := STANDARD_RATE * DEG_TO_RAD in
  let phi_std_rad := atan ((omega_std_rad_s * v_ms) / GRAVITY) in
  let standard_rate_bank' := phi_std_rad * RAD_TO_DEG in
  if Rlt_dec (Rabs tan_phi) 0.001 then
    {| radius_nm := 999.9;
       radius_ft := 999900.0;
       turn_rate_dps := 0.0;
       lead_distance_nm := 0.0;
       lead_distance_ft := 0.0;
       time_to_turn_sec := 999.9;
       load_factor := load_factor';
       standard_rate_bank := standard_rate_bank' |}
  else
    let radius_m := (v_ms * v_ms) / (GRAVITY * tan_phi) in
    let radius_ft' := radius_m * 3.28084 in
    let radius_nm' := radius_ft' / NM_TO_FT in
    let omega_rad_s := (GRAVITY * tan_phi) / v_ms in
    let turn_rate_dps' := omega_rad_s * RAD_TO_DEG in
    let lead_m := radius_m * tan (delta_psi_rad / 2.0) in
    let lead_distance_ft' := lead_m * 3.28084 in
    let lead_distance_nm' := lead_distance_ft' / NM_TO_FT in
    let time_to_turn_sec' :=
      if Rgt_dec turn_rate_dps' 0.01
      then Rabs course_change_deg / turn_rate_dps'
      else 999.9 in
    {| radius_nm := radius_nm';
       radius_ft := radius_ft';
       turn_rate_dps := turn_rate_dps';
       lead_distance_nm := lead_distance_nm';
       lead_distance_ft := lead_distance_ft';
       time_to_turn_sec := time_to_turn_sec';
       load_factor := load_factor';
       standard_rate_bank := standard_rate_bank' |}.

Definition print_json (turn : TurnData) : json_object :=
  [ ("radius_nm"%string, JNumber (radius_nm turn));
    ("radius_ft"%string, JNumber (radius_ft turn));
    ("turn_rate_dps"%string, JNumber (turn_rate_dps turn));
    ("lead_distance_nm"%string, JNumber (lead_distance_nm turn));
    ("lead_distance_ft"%string, JNumber (lead_distance_ft turn));
    ("time_to_turn_sec"%string, JNumber (time_to_turn_sec turn));
    ("load_factor"%string, JNumber (load_factor turn));
    ("standard_rate_bank"%string, JNumber (standard_rate_bank turn)) ].

Definition print_usage (program_name : string) : list string :=
  [ ("Usage: " ++ program_name ++ " <tas_kts> <bank_deg> <course_change_deg>")%string;
    EmptyString;
    "Arguments:"%string;
    "  tas_kts          : True airspeed (knots)"%string;
    "  bank_deg         : Bank angle (degrees)"%string;
    "  course_change_deg: Course change required (degrees)"%string;
    EmptyString;
    "Example:"%string;
    ("  " ++ program_name ++ " 250 25 90")%string;
    "  (250 knots TAS, 25° bank, 90° turn)"%string ].

(** The keys [print_json] writes, in order. *)
Definition json_keys : list string :=
  [ "radius_nm"; "radius_ft"; "turn_rate_dps"; "lead_distance_nm";
    "lead_distance_ft"; "time_to_turn_sec"; "load_factor";
    "standard_rate_bank" ]%string.

Section Program.

Variable stod : string -> thrown double.
Variable nonfinite : list double -> string -> json_value.

Definition parse_double (sv : string) : thrown double := stod sv.

(** [calculate_turn_performance] followed by [print_json], on the
    doubles [main] passes. *)
Definition turn_json (tas_kts bank_deg course_change_deg : double) : json_object :=
  match tas_kts, bank_deg, course_change_deg with
  | Finite tas, Finite bank, Finite course_change =>
      print_json (calculate_turn_performance tas bank course_change)
  | _, _, _ =>
      print_json_nonfinite json_keys
        (nonfinite [tas_kts; bank_deg; course_change_deg])
  end.

(** The body of the [try] block: [Returned] carries what a [return]
    statement inside it produced, [Raised] an escaping exception. *)
Definition main_try (args0 args1 args2 : string) : thrown outcome :=
  tas_kts <- parse_double args0 ;;
  bank_deg <- parse_double args1 ;;
  course_change_deg <- parse_double args2 ;;
  if double_le tas_kts 0 then
    Returned {| exit_code := 1; stdout := [];
                stderr := ["Error: TAS must be positive"%string] |}
  else if double_gt (double_abs bank_deg) 85 then
    Returned {| exit_code := 1; stdout := [];
                stderr := ["Error: Bank angle must be between -85 and 85 degrees"%string] |}
  else
    Returned {| exit_code := 0;
                stdout := [turn_json tas_kts bank_deg course_change_deg];
                stderr := [] |}.

Definition main (program_name : string) (args : list string) : outcome :=
  match args with
  | [args0; args1; args2] =>
      match main_try args0 args1 args2 with
      | Returned o => o
      | Raised what =>
          {| exit_code := 1; stdout := [];
             stderr := ("Error: " ++ what)%string :: print_usage program_name |}
      end
  | _ => {| exit_code := 1; stdout := []; stderr := print_usage program_name |}
  end.

End Program.

End Turn.

(** ** vnav_calculator.cpp *)

Module Vnav.

Definition DEG_TO_RAD : R := PI / 180.0.
Definition RAD_TO_DEG : R := 180.0 / PI.
Definition NM_TO_FT : R := 6076.12.
Definition THREE_DEG_RAD : R := 3.0 * DEG_TO_RAD.
Definition FIVE_DEG_RAD : R := 5.0 * DEG_TO_RAD.

Record VNAVData : Type := {
  altitude_to_lose_ft : R;
  flight_path_angle_deg : R;
  required_vs_fpm : R;
  tod_distance_nm : R;
  time_to_constraint_min : R;
  distance_per_1000ft : R;
  is_descent : bool;
  on_idle_path : bool
}.

Definition VNAVData_members : members VNAVData :=
  [ ("altitude_to_lose_ft"%string, fun v => JNumber (altitude_to_lose_ft v));
    ("flight_path_angle_deg"%string, fun v => JNumber (flight_path_angle_deg v));
    ("required_vs_fpm"%string, fun v => JNumber (required_vs_fpm v));
    ("tod_distance_nm"%string, fun v => JNumber (tod_distance_nm v));
    ("time_to_constraint_min"%string, fun v => JNumber (time_to_constraint_min v));
    ("distance_per_1000ft"%string, fun v => JNumber (distance_per_1000ft v));
    ("is_descent"%string, fun v => JBool (is_descent v));
    ("on_idle_path"%string, fun v => JBool (on_idle_path v)) ].

Definition calculate_vnav
    (current_alt_ft target_alt_ft distance_nm groundspeed_kts : R) : VNAVData :=
  let altitude_change_ft := target_alt_ft - current_alt_ft in
  let altitude_to_lose_ft' := - altitude_change_ft in
  let is_descent' := Rlt_bool altitude_change_ft 0 in
  let distance_nm := if Rlt_dec distance_nm 0.01 then 0.01 else distance_nm in
  let groundspeed_kts :=
    if Rlt_dec groundspeed_kts 1.0 then 1.0 else groundspeed_kts in
  let distance_ft := distance_nm * NM_TO_FT in
  let gamma_rad := atan (altitude_change_ft / distance_ft) in
  let flight_path_angle_deg' := gamma_rad * RAD_TO_DEG in
  let required_vs_fpm' := 101.27 * groundspeed_kts * tan gamma_rad in
  let THREE_DEG_RAD := 3.0 * DEG_TO_RAD in
  let tod_distance_nm' :=
    if is_descent'
    then Rabs altitude_change_ft / (NM_TO_FT * tan THREE_DEG_RAD)
    else 0.0 in
  let time_to_constraint_min' := (distance_nm / groundspeed_kts) * 60.0 in
  let distance_per_1000ft' :=
    if Rgt_dec (Rabs altitude_change_ft) 10.0
    then (distance_nm * 1000.0) / Rabs altitude_change_ft
    else 999.9 in
  let on_idle_path' :=
    if is_descent'
    then
      let abs_fpa := Rabs flight_path_angle_deg' in
      Rge_bool abs_fpa 2.0 && Rle_bool abs_fpa 4.0
    else
      Rge_bool flight_path_angle_deg' 0.5 && Rle_bool flight_path_angle_deg' 15.0 in
  {| altitude_to_lose_ft := altitude_to_lose_ft';
     flight_path_angle_deg := flight_path_angle_deg';
     required_vs_fpm := required_vs_fpm';
     tod_distance_nm := tod_distance_nm';
     time_to_constraint_min := time_to_constraint_min';
     distance_per_1000ft := distance_per_1000ft';
     is_descent := is_descent';
     on_idle_path := on_idle_path' |}.

Record VNAVHelpers : Type := {
  vs_for_3deg : R;
  vs_for_5deg : R;
  distance_remaining_at_current_vs : R
}.

Definition VNAVHelpers_members : members VNAVHelpers :=
  [ ("vs_for_3deg"%string, fun h => JNumber (vs_for_3deg h));
    ("vs_for_5deg"%string, fun h => JNumber (vs_for_5deg h));
    ("distance_remaining_at_current_vs"%string,
      fun h => JNumber (distance_remaining_at_current_vs h)) ].

Definition calculate_vnav_helpers
    (groundspeed_kts current_vs_fpm altitude_change_ft : R) : VNAVHelpers :=
  let vs_for_3deg' := - 101.27 * groundspeed_kts * tan THREE_DEG_RAD in
  let vs_for_5deg' := - 101.27 * groundspeed_kts * tan FIVE_DEG_RAD in
  let distance_remaining' :=
    if Rgt_dec (Rabs current_vs_fpm) 10.0 then
      if Rgt_dec groundspeed_kts 1.0 then
        let time_min := altitude_change_ft / current_vs_fpm in
        let d := (time_min * groundspeed_kts) / 60.0 in
        if Rlt_dec d 0 then 999.9 else d
      else 999.9
    else 999.9 in
  {| vs_for_3deg := vs_for_3deg';
     vs_for_5deg := vs_for_5deg';
     distance_remaining_at_current_vs := distance_remaining' |}.

Definition print_json (vnav : VNAVData) (helpers : VNAVHelpers) : json_object :=
  [ ("altitude_to_lose_ft"%string, JNumber (altitude_to_lose_ft vnav));
    ("flight_path_angle_deg"%string, JNumber (flight_path_angle_deg vnav));
    ("required_vs_fpm"%string, JNumber (required_vs_fpm vnav));
    ("tod_distance_nm"%string, JNumber (tod_distance_nm vnav));
    ("time_to_constraint_min"%string, JNumber (time_to_constraint_min vnav));
    ("distance_per_1000ft"%string, JNumber (distance_per_1000ft vnav));
    ("is_descent"%string, JBool (is_descent vnav));
    ("on_idle_path"%string, JBool (on_idle_path vnav));
    ("vs_for_3deg"%string, JNumber (vs_for_3deg helpers));
    ("vs_for_5deg"%string, JNumber (vs_for_5deg helpers));
    ("distance_at_current_vs_nm"%string,
      JNumber (distance_remaining_at_current_vs helpers)) ].

Definition print_usage (program_name : string) : list string :=
  [ ("Usage: " ++ program_name
      ++ " <current_alt_ft> <target_alt_ft> <distance_nm> <groundspeed_kts> [current_vs_fpm]")%string;
    EmptyString;
    "Arguments:"%string;
    "  current_alt_ft  : Current altitude (feet)"%string;
    "  target_alt_ft   : Target altitude at constraint (feet)"%string;
    "  distance_nm     : Distance to constraint (nautical miles)"%string;
    "  groundspeed_kts : Current groundspeed (knots)"%string;
    "  current_vs_fpm  : Current vertical speed (optional, ft/min)"%string;
    EmptyString;
    "Example:"%string;
    ("  " ++ program_name ++ " 35000 10000 100 450 -1500")%string;
    "  (Descend from FL350 to 10000 ft, 100 nm away, GS 450 kts, VS -1500 fpm)"%string ].

(** The keys [print_json] writes, in order. *)
Definition json_keys : list string :=
  [ "altitude_to_lose_ft"; "flight_path_angle_deg"; "required_vs_fpm";
    "tod_distance_nm"; "time_to_constraint_min"; "distance_per_1000ft";
    "is_descent"; "on_idle_path";
    "vs_for_3deg"; "vs_for_5deg"; "distance_at_current_vs_nm" ]%string.

Section Program.

Variable stod : string -> thrown double.
Variable nonfinite : list double -> string -> json_value.

Definition parse_double (sv : string) : thrown double := stod sv.

(** [calculate_vnav] and [calculate_vnav_helpers] followed by
    [print_json], on the doubles [main] passes. *)
Definition vnav_json
    (current_alt_ft target_alt_ft distance_nm groundspeed_kts current_vs_fpm : double)
    : json_object :=
  match current_alt_ft, target_alt_ft, distance_nm, groundspeed_kts, current_vs_fpm with
  | Finite current_alt, Finite target_alt, Finite distance, Finite groundspeed,
    Finite current_vs =>
      let vnav := calculate_vnav current_alt target_alt distance groundspeed in
      let altitude_change_ft := target_alt - current_alt in
      let helpers := calculate_vnav_helpers groundspeed current_vs altitude_change_ft in
      print_json vnav helpers
  | _, _, _, _, _ =>
      print_json_nonfinite json_keys
        (nonfinite [current_alt_ft; target_alt_ft; distance_nm; groundspeed_kts;
                    current_vs_fpm])
  end.

(** The body of the [try] block; [args4] is the optional fifth
    argument. *)
Definition main_try (args0 args1 args2 args3 : string) (args4 : option string)
    : thrown outcome :=
  current_alt_ft <- parse_double args0 ;;
  target_alt_ft <- parse_double args1 ;;
  distance_nm <- parse_double args2 ;;
  groundspeed_kts <- parse_double args3 ;;
  current_vs_fpm <- match args4 with
                    | Some a => parse_double a
                    | None => Returned (Finite 0.0)
                    end ;;
  if double_lt distance_nm 0 then
    Returned {| exit_code := 1; stdout := [];
                stderr := ["Error: Distance cannot be negative"%string] |}
  else if double_le groundspeed_kts 0 then
    Returned {| exit_code := 1; stdout := [];
                stderr := ["Error: Groundspeed must be positive"%string] |}
  else
    Returned {| exit_code := 0;
                stdout := [vnav_json current_alt_ft target_alt_ft distance_nm
                             groundspeed_kts current_vs_fpm];
                stderr := [] |}.

Definition main (program_name : string) (args : list string) : outcome :=
  let handle (r : thrown outcome) : outcome :=
    match r with
    | Returned o => o
    | Raised what =>
        {| exit_code := 1; stdout := [];
           stderr := ("Error: " ++ what)%string :: print_usage program_name |}
    end in
  match args with
  | [args0; args1; args2; args3] =>
      handle (main_try args0 args1 args2 args3 None)
  | [args0; args1; args2; args3; args4] =>
      handle (main_try args0 args1 args2 args3 (Some args4))
  | _ => {| exit_code := 1; stdout := []; stderr := print_usage program_name |}
  end.

End Program.

End Vnav.


(** ** wind_calculator.cpp *)

Module Wind.

Definition DEG_TO_RAD : R := PI / 180.0.

Record WindComponents : Type := {
  headwind : R;
  crosswind : R;
  total_wind : R;
  wca : R;
  drift : R
}.

Definition WindComponents_members : members WindComponents :=
  [ ("headwind"%string, fun w => JNumber (headwind w));
    ("crosswind"%string, fun w => JNumber (crosswind w));
    ("total_wind"%string, fun w => JNumber (total_wind w));
    ("wca"%string, fun w => JNumber (wca w));
    ("drift"%string, fun w => JNumber (drift w)) ].

(** Upper bounds on the number of iterations left in the two loops of
    [normalize_angle]; they are the termination measures. *)
Definition rounds_below (angle : R) : nat := Z.to_nat (up (- angle / 360.0)).
Definition rounds_above (angle : R) : nat := Z.to_nat (up (angle / 360.0)).

(** [while (angle < 0) angle += 360.0;] *)
Equations? while_negative (angle : R) : R by wf (rounds_below angle) lt :=
  while_negative angle with Rlt_dec angle 0 := {
    | left _ => while_negative (angle + 360.0)
    | right _ => angle }.
Proof.
  unfold rounds_below.
  replace (- (angle + 360.0) / 360.0) with (- angle / 360.0 - 1) by (field; lra).
  pose proof (archimed (- angle / 360.0)) as [Hup Hlo].
  pose proof (archimed (- angle / 360.0 - 1)) as [Hup' Hlo'].
  assert (Hpos : 0 < - angle / 360.0)
    by (apply Rdiv_lt_0_compat; lra).
  assert (H1 : (0 < up (- angle / 360.0))%Z)
    by (apply lt_IZR; lra).
  assert (H2 : (up (- angle / 360.0 - 1) < up (- angle / 360.0))%Z)
    by (apply lt_IZR; lra).
  lia.
Qed.

(** [while (angle >= 360.0) angle -= 360.0;] *)
Equations? while_full_turn (angle : R) : R by wf (rounds_above angle) lt :=
  while_full_turn angle with Rge_dec angle 360.0 := {
    | left _ => while_full_turn (angle - 360.0)
    | right _ => angle }.
Proof.
  unfold rounds_above.
  replace ((angle - 360.0) / 360.0) with (angle / 360.0 - 1) by (field; lra).
  pose proof (archimed (angle / 360.0)) as [Hup Hlo].
  pose proof (archimed (angle / 360.0 - 1)) as [Hup' Hlo'].
  assert (Hpos : 1 <= angle / 360.0)
    by (apply Rmult_le_reg_r with 360.0; [lra | field_simplify; lra]).
  assert (H1 : (0 < up (angle / 360.0))%Z)
    by (apply lt_IZR; lra).
  assert (H2 : (up (angle / 360.0 - 1) < up (angle / 360.0))%Z)
    by (apply lt_IZR; lra).
  lia.
Qed.

Definition normalize_angle (angle : R) : R :=
  while_full_turn (while_negative angle).

Definition calculate_wind (track heading wind_dir wind_speed : R) : WindComponents :=
  let track := normalize_angle track in
  let heading := normalize_angle heading in
  let wind_dir := normalize_angle wind_dir in
  let drift0 := normalize_angle (track - heading) in
  let drift' := if Rgt_dec drift0 180.0 then drift0 - 360.0 else drift0 in
  let wind_from_relative0 := normalize_angle (wind_dir - track) in
  let wind_from_relative :=
    if Rgt_dec wind_from_relative0 180.0
    then wind_from_relative0 - 360.0
    else wind_from_relative0 in
  let wind_from_rad := wind_from_relative * DEG_TO_RAD in
  {| headwind := - wind_speed * cos wind_from_rad;
     crosswind := wind_speed * sin wind_from_rad;
     total_wind := wind_speed;
     wca := 0.0;
     drift := drift' |}.

Definition print_json (wind : WindComponents) : json_object :=
  [ ("headwind"%string, JNumber (headwind wind));
    ("crosswind"%string, JNumber (crosswind wind));
    ("total_wind"%string, JNumber (total_wind wind));
    ("wca"%string, JNumber (wca wind));
    ("drift"%string, JNumber (drift wind)) ].

Definition print_usage (program_name : string) : list string :=
  [ ("Usage: " ++ program_name ++ " <track> <heading> <wind_dir> <wind_speed>")%string;
    EmptyString;
    "Arguments:"%string;
    "  track      : Ground track (degrees true)"%string;
    "  heading    : Aircraft heading (degrees)"%string;
    "  wind_dir   : Wind direction FROM (degrees)"%string;
    "  wind_speed : Wind speed (knots)"%string;
    EmptyString;
    "Example:"%string;
    ("  " ++ program_name ++ " 90 85 270 15")%string;
    "  (Track 90°, Heading 85°, Wind from 270° at 15 knots)"%string ].

(** The keys [print_json] writes, in order. *)
Definition json_keys : list string :=
  [ "headwind"; "crosswind"; "total_wind"; "wca"; "drift" ]%string.

(** The angles on which the loops of [normalize_angle] never end when
    run on binary64 doubles: an infinity, which [+= 360.0] and [-= 360.0]
    leave as it is, and a finite angle beyond 2^62 in magnitude, where
    neighbouring doubles are 1024 apart and the sum rounds back to the
    angle itself.  (At 2^62 and below each iteration moves the angle;
    NaN enters neither loop.) *)
Definition absorbs_full_turn (angle : double) : bool :=
  match angle with
  | Finite x => if Rgt_dec (Rabs x) (2 ^ 62) then true else false
  | PlusInfinity | MinusInfinity => true
  | NaN => false
  end.

Section Program.

Variable stod : string -> thrown double.
Variable nonfinite : list double -> string -> json_value.

Definition parse_double (sv : string) : thrown double := stod sv.

(** [calculate_wind] followed by [print_json], on doubles on which
    [calculate_wind] returns. *)
Definition wind_json (track heading wind_dir wind_speed : double) : json_object :=
  match track, heading, wind_dir, wind_speed with
  | Finite track', Finite heading', Finite wind_dir', Finite wind_speed' =>
      print_json (calculate_wind track' heading' wind_dir' wind_speed')
  | _, _, _, _ =>
      print_json_nonfinite json_keys
        (nonfinite [track; heading; wind_dir; wind_speed])
  end.

(** The body of the [try] block. *)
Definition main_try (args0 args1 args2 args3 : string) : thrown run :=
  track <- parse_double args0 ;;
  heading <- parse_double args1 ;;
  wind_dir <- parse_double args2 ;;
  wind_speed <- parse_double args3 ;;
  if double_lt wind_speed 0 then
    Returned (Exits {| exit_code := 1; stdout := [];
                       stderr := ["Error: Wind speed cannot be negative"%string] |})
  else if absorbs_full_turn track || absorbs_full_turn heading
          || absorbs_full_turn wind_dir then
    Returned NeverExits
  else
    Returned (Exits {| exit_code := 0;
                       stdout := [wind_json track heading wind_dir wind_speed];
                       stderr := [] |}).

Definition main (program_name : string) (args : list string) : run :=
  match args with
  | [args0; args1; args2; args3] =>
      match main_try args0 args1 args2 args3 with
      | Returned r => r
      | Raised what =>
          Exits {| exit_code := 1; stdout := [];
                   stderr := ("Error parsing arguments: " ++ what)%string
                             :: print_usage program_name |}
      end
  | _ => Exits {| exit_code := 1; stdout := []; stderr := print_usage program_name |}
  end.

End Program.

End Wind.

(** ** A fragment of [std::stod]

    The decimal literals used in the worked examples below, with the
    value [std::stod] gives each; every other text raises. *)

Definition stod_examples (sv : string) : thrown double :=
  if String.eqb sv "250" then Returned 250
  else if String.eqb sv "85" then Returned 85
  else if String.eqb sv "-85" then Returned (-85)
  else if String.eqb sv "90" then Returned 90
  else if String.eqb sv "35000" then Returned 35000
  else if String.eqb sv "10000" then Returned 10000
  else if String.eqb sv "0.005" then Returned 0.005
  else if String.eqb sv "0.5" then Returned 0.5
  else Raised "stod".

(** ** Vocabulary of the statements *)

(** Two angles in degrees that differ by a whole number of turns. *)
Definition congruent_mod_360 (a b : R) : Prop :=
  exists k : Z, b = a + 360 * IZR k.

(** The turn calculator's arguments are three texts that parse, to an
    airspeed and a bank angle that pass validation. *)
Definition turn_accepted (stod : string -> thrown double) (args : list string)
    (tas_kts bank_deg course_change_deg : R) : Prop :=
  exists args0 args1 args2,
    args = [args0; args1; args2] /\
    stod args0 = Returned tas_kts /\
    stod args1 = Returned bank_deg /\
    stod args2 = Returned course_change_deg /\
    0 < tas_kts /\ Rabs bank_deg <= 85.

(** A successful run: exit code 0, the JSON object of the result on
    standard output, nothing on standard error. *)
Definition turn_success (tas_kts bank_deg course_change_deg : R) : outcome :=
  {| exit_code := 0;
     stdout := [Turn.print_json
                  (Turn.calculate_turn_performance tas_kts bank_deg course_change_deg)];
     stderr := [] |}.

Definition vnav_success (current_alt_ft target_alt_ft distance_nm groundspeed_kts
                         current_vs_fpm : R) : outcome :=
  {| exit_code := 0;
     stdout :=
       [Vnav.print_json
          (Vnav.calculate_vnav current_alt_ft target_alt_ft distance_nm groundspeed_kts)
          (Vnav.calculate_vnav_helpers groundspeed_kts current_vs_fpm
             (target_alt_ft - current_alt_ft))];
     stderr := [] |}.

(** A failed run: exit code 1, no JSON, something on standard error. *)
Definition failure (o : outcome) : Prop :=
  exit_code o = 1%Z /\ stdout o = [] /\ stderr o <> [].

(** The VNAV calculator's arguments are four or five texts that parse, to
    a distance and a groundspeed that pass validation; without a fifth
    argument the current vertical speed is 0.0. *)
Definition vnav_accepted (stod : string -> thrown double) (args : list string)
    (current_alt_ft target_alt_ft distance_nm groundspeed_kts current_vs_fpm : R)
    : Prop :=
  exists args0 args1 args2 args3,
    (args = [args0; args1; args2; args3] /\ current_vs_fpm = 0.0 \/
     exists args4,
       args = [args0; args1; args2; args3; args4] /\
       stod args4 = Returned current_vs_fpm) /\
    stod args0 = Returned current_alt_ft /\
    stod args1 = Returned target_alt_ft /\
    stod args2 = Returned distance_nm /\
    stod args3 = Returned groundspeed_kts /\
    0 <= distance_nm /\ 0 < groundspeed_kts.



(** The decimal literals of the wind and VNAV examples, beside those of
    [stod_examples]. *)
Definition stod_more_examples (sv : string) : thrown double :=
  if String.eqb sv "nan" then Returned NaN
  else if String.eqb sv "inf" then Returned PlusInfinity
  else if String.eqb sv "1e20" then Returned 100000000000000000000
  else if String.eqb sv "25" then Returned 25
  else if String.eqb sv "270" then Returned 270
  else if String.eqb sv "15" then Returned 15
  else if String.eqb sv "100" then Returned 100
  else if String.eqb sv "450" then Returned 450
  else if String.eqb sv "-1500" then Returned (-1500)
  else stod_examples sv.

(** The turn calculator's arguments are three texts that parse, to
    doubles on which neither test of [main] is true. *)
Definition turn_passes (stod : string -> thrown double) (args : list string)
    (tas_kts bank_deg course_change_deg : double) : Prop :=
  exists args0 args1 args2,
    args = [args0; args1; args2] /\
    stod args0 = Returned tas_kts /\
    stod args1 = Returned bank_deg /\
    stod args2 = Returned course_change_deg /\
    double_le tas_kts 0 = false /\
    double_gt (double_abs bank_deg) 85 = false.

(** The VNAV calculator's arguments are four or five texts that parse,
    to doubles on which neither test of [main] is true. *)
Definition vnav_passes (stod : string -> thrown double) (args : list string)
    (current_alt_ft target_alt_ft distance_nm groundspeed_kts current_vs_fpm : double)
    : Prop :=
  exists args0 args1 args2 args3,
    (args = [args0; args1; args2; args3] /\ current_vs_fpm = Finite 0.0 \/
     exists args4,
       args = [args0; args1; args2; args3; args4] /\
       stod args4 = Returned current_vs_fpm) /\
    stod args0 = Returned current_alt_ft /\
    stod args1 = Returned target_alt_ft /\
    stod args2 = Returned distance_nm /\
    stod args3 = Returned groundspeed_kts /\
    double_lt distance_nm 0 = false /\
    double_le groundspeed_kts 0 = false.



(** * Properties *)

(** ** Turn calculator *)

Lemma feet_of_nautical_miles (x c : R) : c <> 0 -> x = x / c * c.
Proof. intros Hc. field. exact Hc. Qed.

Lemma Rabs_0_lt_milli : Rabs 0 < 0.001.
Proof. rewrite Rabs_R0. lra. Qed.

Lemma turn_deg_to_rad (x : R) : x * Turn.DEG_TO_RAD = x * (PI / 180).
Proof. unfold Turn.DEG_TO_RAD. f_equal. f_equal. lra. Qed.

Lemma tan_zero_degrees : tan (0 * (PI / 180)) = 0.
Proof. rewrite Rmult_0_l. apply tan_0. Qed.

Lemma tan_minus_45_degrees : tan (-45 * (PI / 180)) = -1.
Proof.
  replace (-45 * (PI / 180)) with (- (PI / 4)) by field.
  rewrite tan_neg, tan_PI4. reflexivity.
Qed.

(** The wings-level branch of [calculate_turn_performance]. *)
Lemma turn_wings_level (tas_kts bank_deg course_change_deg : R) :
  Rabs (tan (bank_deg * (PI / 180))) < 0.001 ->
  Turn.calculate_turn_performance tas_kts bank_deg course_change_deg =
  {| Turn.radius_nm := 999.9;
     Turn.radius_ft := 999900.0;
     Turn.turn_rate_dps := 0.0;
     Turn.lead_distance_nm := 0.0;
     Turn.lead_distance_ft := 0.0;
     Turn.time_to_turn_sec := 999.9;
     Turn.load_factor := 1.0 / cos (bank_deg * Turn.DEG_TO_RAD);
     Turn.standard_rate_bank :=
       atan ((Turn.STANDARD_RATE * Turn.DEG_TO_RAD * (tas_kts * Turn.KTS_TO_MS))
             / Turn.GRAVITY) * Turn.RAD_TO_DEG |}.
Proof.
  intros Hlevel. unfold Turn.calculate_turn_performance.
  rewrite turn_deg_to_rad.
  destruct (Rlt_dec (Rabs (tan (bank_deg * (PI / 180)))) 0.001) as [_ | Hn].
  - reflexivity.
  - contradiction.
Qed.

(** The banked branch of [calculate_turn_performance], field by field. *)
Lemma turn_banked (tas_kts bank_deg course_change_deg : R) :
  ~ Rabs (tan (bank_deg * (PI / 180))) < 0.001 ->
  let v_ms := tas_kts * Turn.KTS_TO_MS in
  let tan_phi := tan (bank_deg * (PI / 180)) in
  let radius_m := (v_ms * v_ms) / (Turn.GRAVITY * tan_phi) in
  let rate := (Turn.GRAVITY * tan_phi) / v_ms * Turn.RAD_TO_DEG in
  let lead_m := radius_m * tan (course_change_deg * Turn.DEG_TO_RAD / 2.0) in
  Turn.calculate_turn_performance tas_kts bank_deg course_change_deg =
  {| Turn.radius_nm := radius_m * 3.28084 / Turn.NM_TO_FT;
     Turn.radius_ft := radius_m * 3.28084;
     Turn.turn_rate_dps := rate;
     Turn.lead_distance_nm := lead_m * 3.28084 / Turn.NM_TO_FT;
     Turn.lead_distance_ft := lead_m * 3.28084;
     Turn.time_to_turn_sec :=
       if Rgt_dec rate 0.01 then Rabs course_change_deg / rate else 999.9;
     Turn.load_factor := 1.0 / cos (bank_deg * Turn.DEG_TO_RAD);
     Turn.standard_rate_bank :=
       atan ((Turn.STANDARD_RATE * Turn.DEG_TO_RAD * (tas_kts * Turn.KTS_TO_MS))
             / Turn.GRAVITY) * Turn.RAD_TO_DEG |}.
Proof.
  intros Hbank. unfold Turn.calculate_turn_performance.
  rewrite (turn_deg_to_rad bank_deg).
  destruct (Rlt_dec (Rabs (tan (bank_deg * (PI / 180)))) 0.001) as [Hl | _].
  - contradiction.
  - reflexivity.
Qed.

(** The standard-rate bank angle does not depend on the branch taken. *)
Lemma turn_standard_rate_bank (tas_kts bank_deg course_change_deg : R) :
  Turn.standard_rate_bank
    (Turn.calculate_turn_performance tas_kts bank_deg course_change_deg) =
  atan ((3 * PI / 180) * tas_kts * 0.514444 / 9.80665) * 180 / PI.
Proof.
  assert (Hpi : PI <> 0) by (pose proof PI_RGT_0; lra).
  assert (Hstd :
    atan ((Turn.STANDARD_RATE * Turn.DEG_TO_RAD * (tas_kts * Turn.KTS_TO_MS))
          / Turn.GRAVITY) * Turn.RAD_TO_DEG =
    atan ((3 * PI / 180) * tas_kts * 0.514444 / 9.80665) * 180 / PI).
  { unfold Turn.STANDARD_RATE, Turn.DEG_TO_RAD, Turn.KTS_TO_MS, Turn.GRAVITY,
      Turn.RAD_TO_DEG.
    replace 3.0 with 3 by lra. replace 180.0 with 180 by lra.
    assert (Hg : 9.80665 <> 0) by lra.
    generalize dependent 9.80665. generalize 0.514444. intros k g Hg.
    replace (3 * (PI / 180) * (tas_kts * k) / g)
      with (3 * PI / 180 * tas_kts * k / g) by (field; exact Hg).
    field. exact Hpi. }
  destruct (Rlt_dec (Rabs (tan (bank_deg * (PI / 180)))) 0.001) as [Hl | Hb].
  - rewrite (turn_wings_level _ _ _ Hl). exact Hstd.
  - rewrite (turn_banked _ _ _ Hb). exact Hstd.
Qed.

(** C1, as stated, fails: at 250 kt with wings level the sentinel radius
    in feet, 999900.0, is not the sentinel radius in nautical miles,
    999.9, times 6076.12. *)
Lemma turn_sentinel_radius_not_converted :
  Turn.radius_ft (Turn.calculate_turn_performance 250 0 90) <>
  Turn.radius_nm (Turn.calculate_turn_performance 250 0 90) * 6076.12.
Proof.
  rewrite turn_wings_level
    by (rewrite tan_zero_degrees; exact Rabs_0_lt_milli).
  cbn [Turn.radius_ft Turn.radius_nm]. lra.
Qed.

(** C1 (amended): for every valid turn input, in the computed branch
    [radius_ft = radius_nm * 6076.12]; in the wings-level branch the two
    radius fields are the sentinels 999.9 and 999900.0; and in both
    branches [lead_distance_ft = lead_distance_nm * 6076.12]. *)
Theorem turn_feet_and_nautical_miles (tas_kts bank_deg course_change_deg : R) :
  0 < tas_kts -> Rabs bank_deg <= 85 ->
  let r := Turn.calculate_turn_performance tas_kts bank_deg course_change_deg in
  (0.001 <= Rabs (tan (bank_deg * (PI / 180))) ->
     Turn.radius_ft r = Turn.radius_nm r * 6076.12) /\
  (Rabs (tan (bank_deg * (PI / 180))) < 0.001 ->
     Turn.radius_nm r = 999.9 /\ Turn.radius_ft r = 999900.0) /\
  Turn.lead_distance_ft r = Turn.lead_distance_nm r * 6076.12.
Proof.
  intros _ _ r. subst r.
  destruct (Rlt_dec (Rabs (tan (bank_deg * (PI / 180)))) 0.001) as [Hl | Hb].
  - rewrite (turn_wings_level _ _ _ Hl).
    cbn [Turn.radius_ft Turn.radius_nm Turn.lead_distance_ft Turn.lead_distance_nm].
    repeat split; lra.
  - rewrite (turn_banked _ _ _ Hb).
    cbn [Turn.radius_ft Turn.radius_nm Turn.lead_distance_ft Turn.lead_distance_nm].
    unfold Turn.NM_TO_FT.
    split; [| split].
    + intros _. apply feet_of_nautical_miles. lra.
    + intros Hl. contradiction.
    + apply feet_of_nautical_miles. lra.
Qed.

Lemma turn_feet_and_nautical_miles_witness :
  0 < 250 /\ Rabs 0 <= 85 /\
  Turn.lead_distance_ft (Turn.calculate_turn_performance 250 0 90) =
  Turn.lead_distance_nm (Turn.calculate_turn_performance 250 0 90) * 6076.12.
Proof.
  assert (H1 : 0 < 250) by lra.
  assert (H2 : Rabs 0 <= 85) by (rewrite Rabs_R0; lra).
  split; [exact H1 | split; [exact H2 |]].
  exact (proj2 (proj2 (turn_feet_and_nautical_miles 250 0 90 H1 H2))).
Defined.

(** C2: for every valid turn input, a bank angle whose tangent is below
    0.001 in magnitude gives the sentinels (radius 999.9 nm and
    999900.0 ft, rate 0, lead distance 0, time-to-turn 999.9); and in
    either branch the standard-rate bank angle is
    atan((3 pi/180) tas 0.514444 / 9.80665) 180/pi, a function of the
    airspeed alone. *)
Theorem turn_wings_level_sentinels (tas_kts bank_deg course_change_deg : R) :
  0 < tas_kts -> Rabs bank_deg <= 85 ->
  let r := Turn.calculate_turn_performance tas_kts bank_deg course_change_deg in
  (Rabs (tan (bank_deg * (PI / 180))) < 0.001 ->
     Turn.radius_nm r = 999.9 /\
     Turn.radius_ft r = 999900.0 /\
     Turn.turn_rate_dps r = 0.0 /\
     Turn.lead_distance_nm r = 0.0 /\
     Turn.lead_distance_ft r = 0.0 /\
     Turn.time_to_turn_sec r = 999.9) /\
  Turn.standard_rate_bank r =
    atan ((3 * PI / 180) * tas_kts * 0.514444 / 9.80665) * 180 / PI.
Proof.
  intros _ _ r. subst r. split.
  - intros Hl. rewrite (turn_wings_level _ _ _ Hl).
    cbn [Turn.radius_nm Turn.radius_ft Turn.turn_rate_dps Turn.lead_distance_nm
         Turn.lead_distance_ft Turn.time_to_turn_sec].
    repeat split; reflexivity.
  - apply turn_standard_rate_bank.
Qed.

Lemma turn_wings_level_sentinels_witness :
  (0 < 250 /\ Rabs 0 <= 85 /\ Rabs (tan (0 * (PI / 180))) < 0.001) /\
  Turn.radius_nm (Turn.calculate_turn_performance 250 0 90) = 999.9 /\
  Turn.time_to_turn_sec (Turn.calculate_turn_performance 250 0 90) = 999.9.
Proof.
  assert (H1 : 0 < 250) by lra.
  assert (H2 : Rabs 0 <= 85) by (rewrite Rabs_R0; lra).
  assert (H3 : Rabs (tan (0 * (PI / 180))) < 0.001)
    by (rewrite tan_zero_degrees; exact Rabs_0_lt_milli).
  split; [exact (conj H1 (conj H2 H3)) |].
  destruct (turn_wings_level_sentinels 250 0 90 H1 H2) as [Hs _].
  destruct (Hs H3) as (Hnm & _ & _ & _ & _ & Htime).
  exact (conj Hnm Htime).
Defined.

(** C9: with positive airspeed and a left bank whose tangent is at most
    -0.001, radius (nm and ft) and turn rate are strictly negative, and
    time-to-turn is the sentinel 999.9 whatever the course change. *)
Theorem turn_left_bank_negative (tas_kts bank_deg course_change_deg : R) :
  0 < tas_kts -> -85 <= bank_deg -> tan (bank_deg * (PI / 180)) <= -0.001 ->
  let r := Turn.calculate_turn_performance tas_kts bank_deg course_change_deg in
  Turn.radius_nm r < 0 /\
  Turn.radius_ft r < 0 /\
  Turn.turn_rate_dps r < 0 /\
  Turn.time_to_turn_sec r = 999.9.
Proof.
  intros Htas _ Htan r. subst r.
  assert (Hb : ~ Rabs (tan (bank_deg * (PI / 180))) < 0.001).
  { rewrite Rabs_left by lra. lra. }
  rewrite (turn_banked _ _ _ Hb).
  cbn [Turn.radius_nm Turn.radius_ft Turn.turn_rate_dps Turn.time_to_turn_sec].
  set (t := tan (bank_deg * (PI / 180))) in *.
  assert (Hv : 0 < tas_kts * Turn.KTS_TO_MS)
    by (unfold Turn.KTS_TO_MS; apply Rmult_lt_0_compat; lra).
  set (v := tas_kts * Turn.KTS_TO_MS) in *.
  assert (Hgt : Turn.GRAVITY * t < 0) by (unfold Turn.GRAVITY; nra).
  assert (Hvv : 0 < v * v) by nra.
  assert (Hinv : / (Turn.GRAVITY * t) < 0) by (apply Rinv_neg; exact Hgt).
  assert (Hrad : v * v / (Turn.GRAVITY * t) < 0) by (unfold Rdiv; nra).
  assert (Hft : v * v / (Turn.GRAVITY * t) * 3.28084 < 0) by nra.
  assert (Hpi : 0 < PI) by exact PI_RGT_0.
  assert (Hdeg : 0 < Turn.RAD_TO_DEG)
    by (unfold Turn.RAD_TO_DEG; apply Rdiv_lt_0_compat; lra).
  assert (Hvinv : 0 < / v) by (apply Rinv_0_lt_compat; exact Hv).
  assert (Hom : Turn.GRAVITY * t / v < 0) by (unfold Rdiv; nra).
  assert (Hrate : Turn.GRAVITY * t / v * Turn.RAD_TO_DEG < 0) by nra.
  repeat split.
  - unfold Turn.NM_TO_FT, Rdiv at 1.
    assert (0 < / 6076.12) by (apply Rinv_0_lt_compat; lra). nra.
  - exact Hft.
  - exact Hrate.
  - destruct (Rgt_dec (Turn.GRAVITY * t / v * Turn.RAD_TO_DEG) 0.01) as [Hgt' | _].
    + lra.
    + reflexivity.
Qed.

Lemma turn_left_bank_negative_witness :
  (0 < 250 /\ -85 <= -45 /\ tan (-45 * (PI / 180)) <= -0.001) /\
  Turn.turn_rate_dps (Turn.calculate_turn_performance 250 (-45) 90) < 0 /\
  Turn.time_to_turn_sec (Turn.calculate_turn_performance 250 (-45) 90) = 999.9.
Proof.
  assert (H1 : 0 < 250) by lra.
  assert (H2 : -85 <= -45) by lra.
  assert (H3 : tan (-45 * (PI / 180)) <= -0.001)
    by (rewrite tan_minus_45_degrees; lra).
  split; [exact (conj H1 (conj H2 H3)) |].
  destruct (turn_left_bank_negative 250 (-45) 90 H1 H2 H3) as (_ & _ & Hrate & Htime).
  exact (conj Hrate Htime).
Defined.

Lemma double_le_finite (x y : R) : double_le x y = false <-> y < x.
Proof.
  cbn [double_le]. unfold Rle_bool.
  destruct (Rle_dec x y); split; intros H; try discriminate; try reflexivity; lra.
Qed.

Lemma double_lt_finite (x y : R) : double_lt x y = false <-> y <= x.
Proof.
  cbn [double_lt]. unfold Rlt_bool.
  destruct (Rlt_dec x y); split; intros H; try discriminate; try reflexivity; lra.
Qed.

Lemma double_abs_gt_finite (x y : R) :
  double_gt (double_abs x) y = false <-> Rabs x <= y.
Proof. unfold double_gt. cbn [double_abs]. apply double_lt_finite. Qed.

Lemma turn_accepted_passes (stod : string -> thrown double) (args : list string)
    (tas_kts bank_deg course_change_deg : R) :
  turn_accepted stod args tas_kts bank_deg course_change_deg <->
  turn_passes stod args tas_kts bank_deg course_change_deg.
Proof.
  unfold turn_accepted, turn_passes.
  split; intros (a0 & a1 & a2 & Hargs & H0 & H1 & H2 & Htas & Hbank);
    exists a0, a1, a2; repeat split; try assumption.
  - apply double_le_finite. exact Htas.
  - apply double_abs_gt_finite. exact Hbank.
  - apply double_le_finite. exact Htas.
  - apply double_abs_gt_finite. exact Hbank.
Qed.

Lemma turn_main_passes (stod : string -> thrown double)
    (nonfinite : list double -> string -> json_value) (program_name : string)
    (args : list string) (tas_kts bank_deg course_change_deg : double) :
  turn_passes stod args tas_kts bank_deg course_change_deg ->
  Turn.main stod nonfinite program_name args =
  {| exit_code := 0;
     stdout := [Turn.turn_json nonfinite tas_kts bank_deg course_change_deg];
     stderr := [] |}.
Proof.
  intros (a0 & a1 & a2 & -> & H0 & H1 & H2 & Htas & Hbank).
  unfold Turn.main, Turn.main_try, Turn.parse_double.
  rewrite H0, H1, H2. cbn [bind]. rewrite Htas, Hbank. reflexivity.
Qed.

Lemma turn_main_accepts (stod : string -> thrown double)
    (nonfinite : list double -> string -> json_value) (program_name : string)
    (args : list string) (tas_kts bank_deg course_change_deg : R) :
  turn_accepted stod args tas_kts bank_deg course_change_deg ->
  Turn.main stod nonfinite program_name args =
  turn_success tas_kts bank_deg course_change_deg.
Proof.
  intros Hacc. apply turn_accepted_passes in Hacc.
  rewrite (turn_main_passes _ nonfinite program_name _ _ _ _ Hacc). reflexivity.
Qed.

Lemma turn_main_cases (stod : string -> thrown double)
    (nonfinite : list double -> string -> json_value) (program_name : string)
    (args : list string) :
  (exists tas_kts bank_deg course_change_deg,
     turn_passes stod args tas_kts bank_deg course_change_deg) \/
  failure (Turn.main stod nonfinite program_name args).
Proof.
  destruct args as [| a0 [| a1 [| a2 [| a3 rest]]]];
    try (right; repeat split; cbn; discriminate || reflexivity).
  unfold Turn.main, Turn.main_try, Turn.parse_double.
  destruct (stod a0) as [tas | w0] eqn:H0; cbn [bind];
    [| right; repeat split; cbn; discriminate || reflexivity].
  destruct (stod a1) as [bank | w1] eqn:H1; cbn [bind];
    [| right; repeat split; cbn; discriminate || reflexivity].
  destruct (stod a2) as [cc | w2] eqn:H2; cbn [bind];
    [| right; repeat split; cbn; discriminate || reflexivity].
  destruct (double_le tas 0) eqn:Htas;
    [right; repeat split; cbn; discriminate || reflexivity |].
  destruct (double_gt (double_abs bank) 85) eqn:Hbank;
    [right; repeat split; cbn; discriminate || reflexivity |].
  left. exists tas, bank, cc, a0, a1, a2.
  repeat split; assumption.
Qed.

(** C5, at the failing input: when the first argument parses to NaN (the
    text [nan]) and the bank angle passes its test, the turn calculator
    exits with code 0, prints a JSON object with all eight keys and
    writes nothing to standard error, although no airspeed greater than 0
    was given: [tas_kts <= 0] is false on NaN. *)
Theorem turn_main_accepts_nan
    (stod : string -> thrown double)
    (nonfinite : list double -> string -> json_value) (program_name : string)
    (args0 args1 args2 : string) (bank_deg course_change_deg : double) :
  stod args0 = Returned NaN ->
  stod args1 = Returned bank_deg ->
  stod args2 = Returned course_change_deg ->
  double_gt (double_abs bank_deg) 85 = false ->
  let o := Turn.main stod nonfinite program_name [args0; args1; args2] in
  exit_code o = 0%Z /\
  stderr o = [] /\
  (exists object, stdout o = [object] /\ keys object = Turn.json_keys) /\
  ~ (exists tas_kts bank_deg' course_change_deg',
       turn_accepted stod [args0; args1; args2] tas_kts bank_deg' course_change_deg').
Proof.
  intros H0 H1 H2 Hbank o. subst o.
  assert (Hpass : turn_passes stod [args0; args1; args2] NaN bank_deg course_change_deg).
  { exists args0, args1, args2. repeat split; assumption. }
  rewrite (turn_main_passes _ nonfinite program_name _ _ _ _ Hpass).
  cbn [exit_code stderr stdout].
  split; [reflexivity | split; [reflexivity | split]].
  - eexists. split; [reflexivity |].
    cbn [Turn.turn_json]. unfold print_json_nonfinite, keys.
    rewrite map_map. cbn [fst]. apply map_id.
  - intros (tas & bank' & cc' & a0 & a1 & a2 & Hargs & Htas & _).
    injection Hargs as <- <- <-. rewrite H0 in Htas. discriminate Htas.
Qed.

Lemma turn_main_accepts_nan_witness :
  (stod_more_examples "nan" = Returned NaN /\
   double_gt (double_abs 25) 85 = false) /\
  exit_code
    (Turn.main stod_more_examples (fun _ _ => JNumber NaN) "turn_calculator"
       ["nan"; "25"; "90"]%string) = 0%Z.
Proof.
  assert (H0 : stod_more_examples "nan" = Returned NaN) by reflexivity.
  assert (Hbank : double_gt (double_abs 25) 85 = false).
  { apply double_abs_gt_finite. rewrite Rabs_right by lra. lra. }
  split; [exact (conj H0 Hbank) |].
  exact (proj1 (turn_main_accepts_nan stod_more_examples (fun _ _ => JNumber NaN)
                  "turn_calculator" "nan" "25" "90" 25 90
                  H0 eq_refl eq_refl Hbank)).
Defined.

(** ** VNAV calculator *)

Lemma floor_is_Rmax (x lo : R) : (if Rlt_dec x lo then lo else x) = Rmax x lo.
Proof.
  unfold Rmax.
  destruct (Rlt_dec x lo) as [Hlt | Hge]; destruct (Rle_dec x lo) as [Hle | Hgt];
    lra.
Qed.

Lemma vnav_flight_path_angle (current_alt_ft target_alt_ft distance_nm groundspeed_kts : R) :
  Vnav.flight_path_angle_deg
    (Vnav.calculate_vnav current_alt_ft target_alt_ft distance_nm groundspeed_kts) =
  atan ((target_alt_ft - current_alt_ft) / (Rmax distance_nm 0.01 * 6076.12))
  * 180 / PI.
Proof.
  unfold Vnav.calculate_vnav. cbn [Vnav.flight_path_angle_deg].
  rewrite floor_is_Rmax. unfold Vnav.NM_TO_FT, Vnav.RAD_TO_DEG.
  replace 180.0 with 180 by lra. unfold Rdiv. ring.
Qed.

Lemma vnav_required_vs (current_alt_ft target_alt_ft distance_nm groundspeed_kts : R) :
  Vnav.required_vs_fpm
    (Vnav.calculate_vnav current_alt_ft target_alt_ft distance_nm groundspeed_kts) =
  101.27 * Rmax groundspeed_kts 1
  * tan (atan ((target_alt_ft - current_alt_ft) / (Rmax distance_nm 0.01 * 6076.12))).
Proof.
  unfold Vnav.calculate_vnav. cbn [Vnav.required_vs_fpm].
  rewrite !floor_is_Rmax. unfold Vnav.NM_TO_FT.
  replace 1.0 with 1 by lra. reflexivity.
Qed.

Lemma vnav_distance_per_1000ft (current_alt_ft target_alt_ft distance_nm groundspeed_kts : R) :
  Vnav.distance_per_1000ft
    (Vnav.calculate_vnav current_alt_ft target_alt_ft distance_nm groundspeed_kts) =
  if Rgt_dec (Rabs (target_alt_ft - current_alt_ft)) 10.0
  then Rmax distance_nm 0.01 * 1000.0 / Rabs (target_alt_ft - current_alt_ft)
  else 999.9.
Proof.
  unfold Vnav.calculate_vnav. cbn [Vnav.distance_per_1000ft].
  rewrite floor_is_Rmax. reflexivity.
Qed.

Lemma vnav_main_accepts (stod : string -> thrown double)
    (nonfinite : list double -> string -> json_value) (program_name : string)
    (args0 args1 args2 args3 : string)
    (current_alt_ft target_alt_ft distance_nm groundspeed_kts : R) :
  stod args0 = Returned current_alt_ft ->
  stod args1 = Returned target_alt_ft ->
  stod args2 = Returned distance_nm ->
  stod args3 = Returned groundspeed_kts ->
  0 <= distance_nm -> 0 < groundspeed_kts ->
  Vnav.main stod nonfinite program_name [args0; args1; args2; args3] =
  vnav_success current_alt_ft target_alt_ft distance_nm groundspeed_kts 0.0.
Proof.
  intros H0 H1 H2 H3 Hd Hg.
  unfold Vnav.main, Vnav.main_try, Vnav.parse_double.
  rewrite H0, H1, H2, H3. cbn [bind].
  rewrite (proj2 (double_lt_finite distance_nm 0) Hd).
  rewrite (proj2 (double_le_finite groundspeed_kts 0) Hg).
  reflexivity.
Qed.

(** C3: once validation has passed ([distance_nm >= 0],
    [groundspeed_kts > 0]), a distance below 0.01 counts as 0.01 and a
    groundspeed below 1.0 as 1.0; [main] does not reject such values; and
    with the floored values the flight-path angle is
    atan((target - current) / (distance 6076.12)) 180/pi and the required
    vertical speed is 101.27 groundspeed tan(gamma). *)
Theorem vnav_clamps_then_computes
    (current_alt_ft target_alt_ft distance_nm groundspeed_kts : R) :
  0 <= distance_nm -> 0 < groundspeed_kts ->
  let r := Vnav.calculate_vnav current_alt_ft target_alt_ft distance_nm groundspeed_kts in
  let distance := Rmax distance_nm 0.01 in
  let groundspeed := Rmax groundspeed_kts 1 in
  let gamma_rad := atan ((target_alt_ft - current_alt_ft) / (distance * 6076.12)) in
  Vnav.flight_path_angle_deg r = gamma_rad * 180 / PI /\
  Vnav.required_vs_fpm r = 101.27 * groundspeed * tan gamma_rad /\
  (forall (stod : string -> thrown double) nonfinite program_name
          args0 args1 args2 args3,
     stod args0 = Returned current_alt_ft ->
     stod args1 = Returned target_alt_ft ->
     stod args2 = Returned distance_nm ->
     stod args3 = Returned groundspeed_kts ->
     Vnav.main stod nonfinite program_name [args0; args1; args2; args3] =
     vnav_success current_alt_ft target_alt_ft distance_nm groundspeed_kts 0.0).
Proof.
  intros Hd Hg r distance groundspeed gamma_rad.
  subst r distance groundspeed gamma_rad.
  split; [apply vnav_flight_path_angle | split; [apply vnav_required_vs |]].
  intros stod nonfinite program_name a0 a1 a2 a3 H0 H1 H2 H3.
  apply vnav_main_accepts; assumption.
Qed.

Lemma vnav_clamps_then_computes_witness :
  (0 <= 0.005 /\ 0 < 0.5) /\
  Vnav.flight_path_angle_deg (Vnav.calculate_vnav 35000 10000 0.005 0.5) =
    atan ((10000 - 35000) / (0.01 * 6076.12)) * 180 / PI /\
  Vnav.required_vs_fpm (Vnav.calculate_vnav 35000 10000 0.005 0.5) =
    101.27 * 1 * tan (atan ((10000 - 35000) / (0.01 * 6076.12))) /\
  exit_code (Vnav.main stod_examples (fun _ _ => JNumber NaN) "vnav_calculator"
               ["35000"; "10000"; "0.005"; "0.5"]%string) = 0%Z.
Proof.
  assert (Hd : 0 <= 0.005) by lra.
  assert (Hg : 0 < 0.5) by lra.
  split; [exact (conj Hd Hg) |].
  destruct (vnav_clamps_then_computes 35000 10000 0.005 0.5 Hd Hg)
    as (Hfpa & Hvs & Hmain).
  cbv zeta in Hfpa, Hvs.
  replace (Rmax 0.005 0.01) with 0.01 in Hfpa, Hvs
    by (unfold Rmax; destruct (Rle_dec 0.005 0.01); lra).
  replace (Rmax 0.5 1) with 1 in Hvs
    by (unfold Rmax; destruct (Rle_dec 0.5 1); lra).
  split; [exact Hfpa | split; [exact Hvs |]].
  rewrite (Hmain stod_examples (fun _ _ => JNumber NaN) "vnav_calculator"%string
             "35000"%string "10000"%string "0.005"%string "0.5"%string
             eq_refl eq_refl eq_refl eq_refl).
  reflexivity.
Defined.

(** C6: for every valid VNAV input, when the altitude change exceeds
    10 ft in magnitude, [distance_per_1000ft] times that magnitude is the
    floored distance times 1000; otherwise [distance_per_1000ft] is the
    sentinel 999.9. *)
Theorem vnav_distance_per_1000ft_product
    (current_alt_ft target_alt_ft distance_nm groundspeed_kts : R) :
  0 <= distance_nm -> 0 < groundspeed_kts ->
  let r := Vnav.calculate_vnav current_alt_ft target_alt_ft distance_nm groundspeed_kts in
  let altitude_change_ft := target_alt_ft - current_alt_ft in
  (10 < Rabs altitude_change_ft ->
     Vnav.distance_per_1000ft r * Rabs altitude_change_ft =
     Rmax distance_nm 0.01 * 1000) /\
  (Rabs altitude_change_ft <= 10 -> Vnav.distance_per_1000ft r = 999.9).
Proof.
  intros _ _ r altitude_change_ft. subst r altitude_change_ft.
  rewrite vnav_distance_per_1000ft.
  destruct (Rgt_dec (Rabs (target_alt_ft - current_alt_ft)) 10.0) as [Hbig | Hsmall].
  - split; [| intros Hle; lra].
    intros _. replace 1000.0 with 1000 by lra.
    field. lra.
  - split; [intros Hlt; lra | reflexivity].
Qed.

Lemma vnav_distance_per_1000ft_product_witness :
  (0 <= 100 /\ 0 < 450 /\ 10 < Rabs (10000 - 35000)) /\
  Vnav.distance_per_1000ft (Vnav.calculate_vnav 35000 10000 100 450)
  * Rabs (10000 - 35000) = Rmax 100 0.01 * 1000.
Proof.
  assert (Hd : 0 <= 100) by lra.
  assert (Hg : 0 < 450) by lra.
  assert (Ha : 10 < Rabs (10000 - 35000)) by (rewrite Rabs_left by lra; lra).
  split; [exact (conj Hd (conj Hg Ha)) |].
  exact (proj1 (vnav_distance_per_1000ft_product 35000 10000 100 450 Hd Hg) Ha).
Defined.

(** ** Wind calculator *)

Lemma while_negative_done (angle : R) : 0 <= angle -> Wind.while_negative angle = angle.
Proof.
  intros Hge. rewrite Wind.while_negative_equation_1.
  destruct (Rlt_dec angle 0) as [Hlt | Hn]; [lra | reflexivity].
Qed.

Lemma while_full_turn_done (angle : R) : angle < 360 -> Wind.while_full_turn angle = angle.
Proof.
  intros Hlt. rewrite Wind.while_full_turn_equation_1.
  destruct (Rge_dec angle 360.0) as [Hge | Hn]; [lra | reflexivity].
Qed.

(** The first loop leaves a non-negative angle, below 360 if it moved at
    all, a whole number of turns above its input. *)
Lemma while_negative_spec (angle : R) :
  0 <= Wind.while_negative angle /\
  (angle < 0 -> Wind.while_negative angle < 360) /\
  exists n : nat, Wind.while_negative angle = angle + 360 * INR n.
Proof.
  funelim (Wind.while_negative angle).
  - destruct H as (Hnonneg & Hbelow & n & Hn).
    rewrite Hn in *. 
    split; [exact Hnonneg | split].
    + intros _. destruct (Rlt_dec (angle + 360.0) 0) as [Hneg | Hpos].
      * apply Hbelow. exact Hneg.
      * rewrite <- Hn. rewrite while_negative_done by lra. lra.
    + exists (S n). rewrite S_INR. lra.
  - split; [lra | split; [intros Hneg; lra |]].
    exists 0%nat. simpl. lra.
Qed.

(** The second loop, entered with a non-negative angle, leaves an angle
    in [0, 360) a whole number of turns below its input. *)
Lemma while_full_turn_spec (angle : R) :
  0 <= angle ->
  (0 <= Wind.while_full_turn angle < 360) /\
  exists n : nat, Wind.while_full_turn angle = angle - 360 * INR n.
Proof.
  funelim (Wind.while_full_turn angle); intros Hnonneg.
  - destruct H as ((Hlo & Hhi) & n & Hn); [lra |].
    split; [split; assumption |].
    exists (S n). rewrite Hn, S_INR. lra.
  - split; [lra |]. exists 0%nat. simpl. lra.
Qed.

Lemma normalize_angle_range (angle : R) :
  0 <= Wind.normalize_angle angle < 360.
Proof.
  unfold Wind.normalize_angle.
  destruct (while_negative_spec angle) as (Hnonneg & _ & _).
  exact (proj1 (while_full_turn_spec _ Hnonneg)).
Qed.

Lemma normalize_angle_congruent (angle : R) :
  congruent_mod_360 angle (Wind.normalize_angle angle).
Proof.
  unfold Wind.normalize_angle, congruent_mod_360.
  destruct (while_negative_spec angle) as (Hnonneg & _ & n & Hn).
  destruct (while_full_turn_spec _ Hnonneg) as (_ & m & Hm).
  exists (Z.of_nat n - Z.of_nat m)%Z.
  rewrite Hm, Hn, minus_IZR, <- !INR_IZR_INZ. lra.
Qed.

Lemma congruent_mod_360_sym (a b : R) :
  congruent_mod_360 a b -> congruent_mod_360 b a.
Proof.
  intros (k & Hk). exists (- k)%Z. rewrite opp_IZR. lra.
Qed.

Lemma congruent_mod_360_trans (a b c : R) :
  congruent_mod_360 a b -> congruent_mod_360 b c -> congruent_mod_360 a c.
Proof.
  intros (k & Hk) (l & Hl). exists (k + l)%Z. rewrite plus_IZR. lra.
Qed.

(** Two angles of [0, 360) a whole number of turns apart are equal. *)
Lemma congruent_mod_360_unique (a b : R) :
  0 <= a < 360 -> 0 <= b < 360 -> congruent_mod_360 a b -> a = b.
Proof.
  intros Ha Hb (k & Hk).
  assert (Hlo : (-1 < k)%Z) by (apply lt_IZR; lra).
  assert (Hhi : (k < 1)%Z) by (apply lt_IZR; lra).
  assert (Hz : k = 0%Z) by lia.
  subst k. lra.
Qed.

Lemma normalize_angle_periodic (a b : R) :
  congruent_mod_360 a b -> Wind.normalize_angle a = Wind.normalize_angle b.
Proof.
  intros Hab.
  apply congruent_mod_360_unique; try apply normalize_angle_range.
  apply congruent_mod_360_trans with b; [| apply normalize_angle_congruent].
  apply congruent_mod_360_trans with a; [| exact Hab].
  apply congruent_mod_360_sym, normalize_angle_congruent.
Qed.

Lemma normalize_angle_fixed (angle : R) :
  0 <= angle < 360 -> Wind.normalize_angle angle = angle.
Proof.
  intros [Hlo Hhi]. unfold Wind.normalize_angle.
  rewrite while_negative_done by exact Hlo.
  apply while_full_turn_done. exact Hhi.
Qed.

(** The worked example of the program's usage text: track 90, heading 85,
    wind from 270 at 15 kt is a pure headwind with 5 degrees of drift. *)
Example wind_usage_example :
  let r := Wind.calculate_wind 90 85 270 15 in
  Wind.drift r = 5 /\ Wind.headwind r = 15 /\ Wind.crosswind r = 0.
Proof.
  cbv zeta. unfold Wind.calculate_wind.
  cbn [Wind.drift Wind.headwind Wind.crosswind].
  rewrite (normalize_angle_fixed 90), (normalize_angle_fixed 85),
    (normalize_angle_fixed 270) by lra.
  replace (90 - 85) with 5 by lra. replace (270 - 90) with 180 by lra.
  rewrite (normalize_angle_fixed 5), (normalize_angle_fixed 180) by lra.
  destruct (Rgt_dec 5 180.0) as [Hgt | _]; [lra |].
  destruct (Rgt_dec 180 180.0) as [Hgt | _]; [lra |].
  replace (180 * Wind.DEG_TO_RAD) with PI
    by (unfold Wind.DEG_TO_RAD; replace 180.0 with 180 by lra; field).
  rewrite cos_PI, sin_PI. repeat split; lra.
Qed.

(** C4: for every valid wind input, replacing track, heading or wind
    direction by an angle congruent to it modulo 360 leaves every field
    of the result of [calculate_wind] unchanged. *)
Theorem wind_periodic (track heading wind_dir wind_speed track' heading' wind_dir' : R) :
  0 <= wind_speed ->
  congruent_mod_360 track track' ->
  congruent_mod_360 heading heading' ->
  congruent_mod_360 wind_dir wind_dir' ->
  Wind.calculate_wind track' heading' wind_dir' wind_speed =
  Wind.calculate_wind track heading wind_dir wind_speed.
Proof.
  intros _ Ht Hh Hw. unfold Wind.calculate_wind.
  rewrite (normalize_angle_periodic _ _ Ht), (normalize_angle_periodic _ _ Hh),
    (normalize_angle_periodic _ _ Hw).
  reflexivity.
Qed.

Lemma wind_periodic_witness :
  (0 <= 15 /\ congruent_mod_360 90 450 /\ congruent_mod_360 85 (-275) /\
   congruent_mod_360 270 990) /\
  Wind.calculate_wind 450 (-275) 990 15 = Wind.calculate_wind 90 85 270 15.
Proof.
  assert (Hs : 0 <= 15) by lra.
  assert (Ht : congruent_mod_360 90 450) by (exists 1%Z; lra).
  assert (Hh : congruent_mod_360 85 (-275)) by (exists (-1)%Z; lra).
  assert (Hw : congruent_mod_360 270 990) by (exists 2%Z; lra).
  split; [exact (conj Hs (conj Ht (conj Hh Hw))) |].
  exact (wind_periodic 90 85 270 15 450 (-275) 990 Hs Ht Hh Hw).
Defined.

(** C8: for every valid wind input the [wca] field of the result of
    [calculate_wind] is 0.0. *)
Theorem wind_wca_zero (track heading wind_dir wind_speed : R) :
  0 <= wind_speed ->
  Wind.wca (Wind.calculate_wind track heading wind_dir wind_speed) = 0.0.
Proof.
  intros _. unfold Wind.calculate_wind. cbn [Wind.wca]. reflexivity.
Qed.

Lemma wind_wca_zero_witness :
  0 <= 15 /\ Wind.wca (Wind.calculate_wind 90 85 270 15) = 0.0.
Proof.
  assert (Hs : 0 <= 15) by lra.
  split; [exact Hs |].
  exact (wind_wca_zero 90 85 270 15 Hs).
Defined.

(** C10: for every valid wind input, headwind squared plus crosswind
    squared equals total wind squared, which equals the input wind speed
    squared. *)
Theorem wind_orthogonal_decomposition (track heading wind_dir wind_speed : R) :
  0 <= wind_speed ->
  let r := Wind.calculate_wind track heading wind_dir wind_speed in
  (Wind.headwind r)² + (Wind.crosswind r)² = (Wind.total_wind r)² /\
  (Wind.total_wind r)² = wind_speed².
Proof.
  intros _ r. subst r. unfold Wind.calculate_wind.
  cbn [Wind.headwind Wind.crosswind Wind.total_wind].
  split; [| reflexivity].
  match goal with
  | |- context [cos ?x] => pose proof (sin2_cos2 x) as Hone; set (c := cos x) in *;
                            set (s := sin x) in *
  end.
  unfold Rsqr in *. nra.
Qed.

Lemma wind_orthogonal_decomposition_witness :
  0 <= 15 /\
  (Wind.headwind (Wind.calculate_wind 90 85 270 15))²
  + (Wind.crosswind (Wind.calculate_wind 90 85 270 15))² = 15².
Proof.
  assert (Hs : 0 <= 15) by lra.
  split; [exact Hs |].
  destruct (wind_orthogonal_decomposition 90 85 270 15 Hs) as [Hsum Htot].
  cbv zeta in Hsum, Htot.
  rewrite Hsum. exact Htot.
Defined.

(** ** JSON output *)

Lemma vnav_print_json_keys (v : Vnav.VNAVData) (h : Vnav.VNAVHelpers) :
  keys (Vnav.print_json v h) =
  [ "altitude_to_lose_ft"; "flight_path_angle_deg"; "required_vs_fpm";
    "tod_distance_nm"; "time_to_constraint_min"; "distance_per_1000ft";
    "is_descent"; "on_idle_path";
    "vs_for_3deg"; "vs_for_5deg"; "distance_at_current_vs_nm" ]%string.
Proof. reflexivity. Qed.

Lemma vnav_member_names (v : Vnav.VNAVData) (h : Vnav.VNAVHelpers) :
  keys (render Vnav.VNAVData_members v ++ render Vnav.VNAVHelpers_members h) =
  [ "altitude_to_lose_ft"; "flight_path_angle_deg"; "required_vs_fpm";
    "tod_distance_nm"; "time_to_constraint_min"; "distance_per_1000ft";
    "is_descent"; "on_idle_path";
    "vs_for_3deg"; "vs_for_5deg"; "distance_remaining_at_current_vs" ]%string.
Proof. reflexivity. Qed.

(** C7, as stated, fails: for the descent from 35000 ft to 10000 ft over
    100 nm at 450 kt, the keys printed by the VNAV calculator are not the
    member names of [VNAVData] followed by those of [VNAVHelpers]. *)
Lemma vnav_keys_differ_from_member_names :
  keys (Vnav.print_json
          (Vnav.calculate_vnav 35000 10000 100 450)
          (Vnav.calculate_vnav_helpers 450 0.0 (10000 - 35000))) <>
  keys (render Vnav.VNAVData_members (Vnav.calculate_vnav 35000 10000 100 450)
        ++ render Vnav.VNAVHelpers_members
             (Vnav.calculate_vnav_helpers 450 0.0 (10000 - 35000))).
Proof.
  rewrite vnav_print_json_keys, vnav_member_names.
  intros Heq. discriminate Heq.
Qed.

(** C7 (amended): every key printed by the three calculators is a
    lowercase snake-case name; the turn and wind calculators print
    exactly the members of their record, under the members' names and in
    declaration order; the VNAV calculator prints the values of the eight
    [VNAVData] members followed by the three [VNAVHelpers] members in
    declaration order, under the members' names except for the last one,
    [distance_remaining_at_current_vs], whose key is
    [distance_at_current_vs_nm]. *)
Theorem json_keys_follow_records :
  (forall t, Turn.print_json t = render Turn.TurnData_members t) /\
  (forall w, Wind.print_json w = render Wind.WindComponents_members w) /\
  (forall v h,
     map snd (Vnav.print_json v h) =
       map snd (render Vnav.VNAVData_members v ++ render Vnav.VNAVHelpers_members h) /\
     keys (Vnav.print_json v h) =
       keys (render Vnav.VNAVData_members v)
       ++ [ "vs_for_3deg"; "vs_for_5deg"; "distance_at_current_vs_nm" ]%string) /\
  (forall t, forallb is_snake_case (keys (Turn.print_json t)) = true) /\
  (forall w, forallb is_snake_case (keys (Wind.print_json w)) = true) /\
  (forall v h, forallb is_snake_case (keys (Vnav.print_json v h)) = true).
Proof.
  repeat split; intros; reflexivity.
Qed.

(** * Further properties of the code *)

(** ** Turn calculator: the remaining fields *)

Lemma PI_gt_3 : 3 < PI.
Proof. pose proof PI2_3_2. lra. Qed.

Lemma valid_bank_in_quadrant (bank_deg : R) :
  Rabs bank_deg <= 85 -> - (PI / 2) < bank_deg * (PI / 180) < PI / 2.
Proof.
  intros Hb. pose proof PI_RGT_0 as Hpi.
  unfold Rabs in Hb. destruct (Rcase_abs bank_deg); split; nra.
Qed.

Lemma turn_load_factor (tas_kts bank_deg course_change_deg : R) :
  Turn.load_factor
    (Turn.calculate_turn_performance tas_kts bank_deg course_change_deg) =
  / cos (bank_deg * (PI / 180)).
Proof.
  assert (Hlf : 1.0 / cos (bank_deg * Turn.DEG_TO_RAD) = / cos (bank_deg * (PI / 180))).
  { rewrite turn_deg_to_rad. replace 1.0 with 1 by lra. unfold Rdiv. ring. }
  destruct (Rlt_dec (Rabs (tan (bank_deg * (PI / 180)))) 0.001) as [Hl | Hb].
  - rewrite (turn_wings_level _ _ _ Hl). exact Hlf.
  - rewrite (turn_banked _ _ _ Hb). exact Hlf.
Qed.

(** X1: for every valid turn input the load factor is at least 1, and it
    is the same for a left and a right bank of the same magnitude. *)
Theorem turn_load_factor_at_least_one (tas_kts bank_deg course_change_deg : R) :
  0 < tas_kts -> Rabs bank_deg <= 85 ->
  1 <= Turn.load_factor
         (Turn.calculate_turn_performance tas_kts bank_deg course_change_deg) /\
  Turn.load_factor
    (Turn.calculate_turn_performance tas_kts (- bank_deg) course_change_deg) =
  Turn.load_factor
    (Turn.calculate_turn_performance tas_kts bank_deg course_change_deg).
Proof.
  intros _ Hb. rewrite !turn_load_factor. split.
  - destruct (valid_bank_in_quadrant _ Hb) as [Hlo Hhi].
    pose proof (cos_gt_0 _ Hlo Hhi) as Hpos.
    pose proof (COS_bound (bank_deg * (PI / 180))) as [_ Hle].
    rewrite <- Rinv_1 at 1. apply Rinv_le_contravar; assumption.
  - replace (- bank_deg * (PI / 180)) with (- (bank_deg * (PI / 180))) by ring.
    rewrite cos_neg. reflexivity.
Qed.

Lemma turn_load_factor_at_least_one_witness :
  (0 < 250 /\ Rabs 25 <= 85) /\
  1 <= Turn.load_factor (Turn.calculate_turn_performance 250 25 90).
Proof.
  assert (H1 : 0 < 250) by lra.
  assert (H2 : Rabs 25 <= 85) by (rewrite Rabs_right by lra; lra).
  split; [exact (conj H1 H2) |].
  exact (proj1 (turn_load_factor_at_least_one 250 25 90 H1 H2)).
Defined.

Lemma standard_rate_argument_pos (tas_kts : R) :
  0 < tas_kts -> 0 < (3 * PI / 180) * tas_kts * 0.514444 / 9.80665.
Proof.
  intros Ht. pose proof PI_RGT_0 as Hpi.
  apply Rdiv_lt_0_compat; [| lra].
  apply Rmult_lt_0_compat; [| lra].
  apply Rmult_lt_0_compat; lra.
Qed.

(** X2: for a positive airspeed the standard-rate bank angle lies strictly
    between 0 and 90 degrees, and it grows strictly with the airspeed. *)
Theorem turn_standard_rate_bank_range
    (tas_kts tas_kts' bank_deg course_change_deg : R) :
  0 < tas_kts -> tas_kts < tas_kts' ->
  let r := Turn.calculate_turn_performance tas_kts bank_deg course_change_deg in
  let r' := Turn.calculate_turn_performance tas_kts' bank_deg course_change_deg in
  0 < Turn.standard_rate_bank r < 90 /\
  Turn.standard_rate_bank r < Turn.standard_rate_bank r'.
Proof.
  intros Ht Hlt r r'. subst r r'. rewrite !turn_standard_rate_bank.
  pose proof PI_RGT_0 as Hpi.
  assert (Hk : 0 < 180 / PI) by (apply Rdiv_lt_0_compat; lra).
  set (y := (3 * PI / 180) * tas_kts * 0.514444 / 9.80665).
  set (y' := (3 * PI / 180) * tas_kts' * 0.514444 / 9.80665).
  assert (Hy : 0 < y) by (apply standard_rate_argument_pos; exact Ht).
  assert (Hyy : y < y').
  { unfold y, y'. unfold Rdiv.
    apply Rmult_lt_compat_r; [apply Rinv_0_lt_compat; lra |].
    apply Rmult_lt_compat_r; [lra |].
    apply Rmult_lt_compat_l; [lra | exact Hlt]. }
  pose proof (atan_increasing _ _ Hy) as Hpos. rewrite atan_0 in Hpos.
  pose proof (atan_bound y) as [_ Hup].
  pose proof (atan_increasing _ _ Hyy) as Hmono.
  replace (atan y * 180 / PI) with (atan y * (180 / PI)) by (unfold Rdiv; ring).
  replace (atan y' * 180 / PI) with (atan y' * (180 / PI)) by (unfold Rdiv; ring).
  assert (Hninety : PI / 2 * (180 / PI) = 90) by (field; lra).
  repeat split.
  - apply Rmult_lt_0_compat; assumption.
  - rewrite <- Hninety. apply Rmult_lt_compat_r; assumption.
  - apply Rmult_lt_compat_r; assumption.
Qed.

Lemma turn_standard_rate_bank_range_witness :
  (0 < 120 /\ 120 < 250) /\
  Turn.standard_rate_bank (Turn.calculate_turn_performance 120 25 90) <
  Turn.standard_rate_bank (Turn.calculate_turn_performance 250 25 90).
Proof.
  assert (H1 : 0 < 120) by lra.
  assert (H2 : 120 < 250) by lra.
  split; [exact (conj H1 H2) |].
  exact (proj2 (turn_standard_rate_bank_range 120 250 25 90 H1 H2)).
Defined.

Lemma standard_rate_algebra (g k v : R) :
  g <> 0 -> k <> 0 -> v <> 0 ->
  g * (3 * PI / 180 * v * k / g) / (v * k) * (180 / PI) = 3.
Proof.
  intros Hg Hk Hv. pose proof PI_RGT_0 as Hpi. field. repeat split; lra.
Qed.

(** X3: banking at the standard-rate bank angle the program reports gives
    a turn rate of 3 degrees per second, and a time-to-turn of a third of
    the course change's magnitude (airspeed at least 1 kt). *)
Theorem turn_standard_rate_round_trip
    (tas_kts bank_deg course_change_deg course_change_deg' : R) :
  1 <= tas_kts ->
  let bank_std :=
    Turn.standard_rate_bank
      (Turn.calculate_turn_performance tas_kts bank_deg course_change_deg) in
  let r := Turn.calculate_turn_performance tas_kts bank_std course_change_deg' in
  Turn.turn_rate_dps r = 3 /\
  Turn.time_to_turn_sec r = Rabs course_change_deg' / 3.
Proof.
  intros Ht bank_std r. subst r bank_std.
  rewrite turn_standard_rate_bank.
  pose proof PI_RGT_0 as Hpi. pose proof PI_gt_3 as Hpi3.
  set (y := (3 * PI / 180) * tas_kts * 0.514444 / 9.80665).
  assert (Hphi : atan y * 180 / PI * (PI / 180) = atan y) by (field; lra).
  assert (Hy : 0.001 <= y).
  { unfold y. apply Rmult_le_reg_r with 9.80665; [lra |].
    unfold Rdiv. rewrite Rmult_assoc, Rinv_l, Rmult_1_r by lra. nra. }
  assert (Hb : ~ Rabs (tan (atan y * 180 / PI * (PI / 180))) < 0.001).
  { rewrite Hphi, tan_atan, Rabs_right by lra. lra. }
  rewrite (turn_banked _ _ _ Hb).
  cbn [Turn.turn_rate_dps Turn.time_to_turn_sec].
  rewrite Hphi, tan_atan.
  assert (Hrate :
    Turn.GRAVITY * y / (tas_kts * Turn.KTS_TO_MS) * Turn.RAD_TO_DEG = 3).
  { unfold y, Turn.GRAVITY, Turn.KTS_TO_MS, Turn.RAD_TO_DEG.
    replace 180.0 with 180 by lra.
    apply standard_rate_algebra; lra. }
  rewrite Hrate. split; [reflexivity |].
  destruct (Rgt_dec 3 0.01) as [_ | Hn]; [reflexivity | lra].
Qed.

Lemma turn_standard_rate_round_trip_witness :
  1 <= 250 /\
  Turn.turn_rate_dps
    (Turn.calculate_turn_performance 250
       (Turn.standard_rate_bank (Turn.calculate_turn_performance 250 25 90)) 90) = 3.
Proof.
  assert (H1 : 1 <= 250) by lra.
  split; [exact H1 |].
  exact (proj1 (turn_standard_rate_round_trip 250 25 90 90 H1)).
Defined.

Lemma radius_times_rate_algebra (v g t c d : R) :
  v <> 0 -> g <> 0 -> t <> 0 ->
  (v * v / (g * t) * c) * (g * t / v * d) = v * c * d.
Proof. intros Hv Hg Ht. field. repeat split; assumption. Qed.

Lemma not_wings_level_tan_nonzero (x : R) : 0.001 <= Rabs x -> x <> 0.
Proof. intros Hx Hz. subst x. rewrite Rabs_R0 in Hx. lra. Qed.

(** X4: in the computed branch the turn radius in feet times the turn
    rate in degrees per second is the airspeed in feet per second times
    180/pi: radius and rate describe one circular motion at the given
    airspeed. *)
Theorem turn_radius_times_rate (tas_kts bank_deg course_change_deg : R) :
  0 < tas_kts -> 0.001 <= Rabs (tan (bank_deg * (PI / 180))) ->
  let r := Turn.calculate_turn_performance tas_kts bank_deg course_change_deg in
  Turn.radius_ft r * Turn.turn_rate_dps r =
  tas_kts * 0.514444 * 3.28084 * (180 / PI).
Proof.
  intros Ht Htan r. subst r.
  assert (Hb : ~ Rabs (tan (bank_deg * (PI / 180))) < 0.001) by lra.
  rewrite (turn_banked _ _ _ Hb).
  cbn [Turn.radius_ft Turn.turn_rate_dps].
  unfold Turn.RAD_TO_DEG, Turn.KTS_TO_MS. replace 180.0 with 180 by lra.
  apply radius_times_rate_algebra.
  - apply Rgt_not_eq. apply Rmult_lt_0_compat; lra.
  - unfold Turn.GRAVITY. lra.
  - apply not_wings_level_tan_nonzero. exact Htan.
Qed.

Lemma turn_radius_times_rate_witness :
  (0 < 250 /\ 0.001 <= Rabs (tan (-45 * (PI / 180)))) /\
  Turn.radius_ft (Turn.calculate_turn_performance 250 (-45) 90)
  * Turn.turn_rate_dps (Turn.calculate_turn_performance 250 (-45) 90) =
  250 * 0.514444 * 3.28084 * (180 / PI).
Proof.
  assert (H1 : 0 < 250) by lra.
  assert (H2 : 0.001 <= Rabs (tan (-45 * (PI / 180))))
    by (rewrite tan_minus_45_degrees, Rabs_left by lra; lra).
  split; [exact (conj H1 H2) |].
  exact (turn_radius_times_rate 250 (-45) 90 H1 H2).
Defined.

Lemma tan_45_degrees : tan (45 * (PI / 180)) = 1.
Proof.
  replace (45 * (PI / 180)) with (PI / 4) by field.
  apply tan_PI4.
Qed.

(** X5: with positive airspeed and a right bank whose tangent is at least
    0.001, radius (nm and ft) and turn rate are strictly positive; the
    time-to-turn times the turn rate is the magnitude of the course change
    when the rate exceeds 0.01 deg/s, and the sentinel 999.9 otherwise. *)
Theorem turn_right_bank_positive (tas_kts bank_deg course_change_deg : R) :
  0 < tas_kts -> 0.001 <= tan (bank_deg * (PI / 180)) ->
  let r := Turn.calculate_turn_performance tas_kts bank_deg course_change_deg in
  0 < Turn.radius_nm r /\
  0 < Turn.radius_ft r /\
  0 < Turn.turn_rate_dps r /\
  (0.01 < Turn.turn_rate_dps r ->
     Turn.time_to_turn_sec r * Turn.turn_rate_dps r = Rabs course_change_deg) /\
  (Turn.turn_rate_dps r <= 0.01 -> Turn.time_to_turn_sec r = 999.9).
Proof.
  intros Htas Htan r. subst r.
  assert (Hb : ~ Rabs (tan (bank_deg * (PI / 180))) < 0.001).
  { rewrite Rabs_right by lra. lra. }
  rewrite (turn_banked _ _ _ Hb).
  cbn [Turn.radius_nm Turn.radius_ft Turn.turn_rate_dps Turn.time_to_turn_sec].
  set (t := tan (bank_deg * (PI / 180))) in *.
  assert (Hv : 0 < tas_kts * Turn.KTS_TO_MS)
    by (unfold Turn.KTS_TO_MS; apply Rmult_lt_0_compat; lra).
  set (v := tas_kts * Turn.KTS_TO_MS) in *.
  assert (Hgt : 0 < Turn.GRAVITY * t) by (unfold Turn.GRAVITY; nra).
  assert (Hrad : 0 < v * v / (Turn.GRAVITY * t))
    by (apply Rdiv_lt_0_compat; [nra | exact Hgt]).
  assert (Hft : 0 < v * v / (Turn.GRAVITY * t) * 3.28084) by nra.
  assert (Hpi : 0 < PI) by exact PI_RGT_0.
  assert (Hdeg : 0 < Turn.RAD_TO_DEG)
    by (unfold Turn.RAD_TO_DEG; apply Rdiv_lt_0_compat; lra).
  assert (Hom : 0 < Turn.GRAVITY * t / v) by (apply Rdiv_lt_0_compat; assumption).
  assert (Hrate : 0 < Turn.GRAVITY * t / v * Turn.RAD_TO_DEG) by nra.
  set (rate := Turn.GRAVITY * t / v * Turn.RAD_TO_DEG) in *.
  split; [| split; [exact Hft | split; [exact Hrate |]]].
  - unfold Turn.NM_TO_FT. apply Rdiv_lt_0_compat; lra.
  - destruct (Rgt_dec rate 0.01) as [Hfast | Hslow]; split.
    + intros _. field. lra.
    + intros Hle. lra.
    + intros Hlt. lra.
    + intros _. reflexivity.
Qed.

Lemma turn_right_bank_positive_witness :
  (0 < 250 /\ 0.001 <= tan (45 * (PI / 180))) /\
  0 < Turn.radius_nm (Turn.calculate_turn_performance 250 45 90) /\
  0 < Turn.turn_rate_dps (Turn.calculate_turn_performance 250 45 90).
Proof.
  assert (H1 : 0 < 250) by lra.
  assert (H2 : 0.001 <= tan (45 * (PI / 180)))
    by (rewrite tan_45_degrees; lra).
  split; [exact (conj H1 H2) |].
  destruct (turn_right_bank_positive 250 45 90 H1 H2) as (Hnm & _ & Hrate & _).
  exact (conj Hnm Hrate).
Defined.

(** X6: whatever the input, the time-to-turn is never negative. *)
Theorem turn_time_to_turn_nonneg (tas_kts bank_deg course_change_deg : R) :
  0 <= Turn.time_to_turn_sec
         (Turn.calculate_turn_performance tas_kts bank_deg course_change_deg).
Proof.
  destruct (Rlt_dec (Rabs (tan (bank_deg * (PI / 180)))) 0.001) as [Hl | Hb].
  - rewrite (turn_wings_level _ _ _ Hl). cbn [Turn.time_to_turn_sec]. lra.
  - rewrite (turn_banked _ _ _ Hb). cbn [Turn.time_to_turn_sec].
    match goal with
    | |- context [Rgt_dec ?rate 0.01] =>
        destruct (Rgt_dec rate 0.01) as [Hfast | Hslow]; [| lra];
        pose proof (Rabs_pos course_change_deg) as Hcc;
        apply Rmult_le_pos; [exact Hcc |];
        apply Rlt_le, Rinv_0_lt_compat; lra
    end.
Qed.

(** X7: negating the course change negates the two lead distances and
    leaves the other six fields of the result as they are. *)
Theorem turn_course_change_mirror (tas_kts bank_deg course_change_deg : R) :
  let r := Turn.calculate_turn_performance tas_kts bank_deg course_change_deg in
  let r' := Turn.calculate_turn_performance tas_kts bank_deg (- course_change_deg) in
  Turn.lead_distance_nm r' = - Turn.lead_distance_nm r /\
  Turn.lead_distance_ft r' = - Turn.lead_distance_ft r /\
  Turn.radius_nm r' = Turn.radius_nm r /\
  Turn.radius_ft r' = Turn.radius_ft r /\
  Turn.turn_rate_dps r' = Turn.turn_rate_dps r /\
  Turn.time_to_turn_sec r' = Turn.time_to_turn_sec r /\
  Turn.load_factor r' = Turn.load_factor r /\
  Turn.standard_rate_bank r' = Turn.standard_rate_bank r.
Proof.
  intros r r'. subst r r'.
  destruct (Rlt_dec (Rabs (tan (bank_deg * (PI / 180)))) 0.001) as [Hl | Hb].
  - rewrite !(turn_wings_level _ _ _ Hl).
    cbn [Turn.lead_distance_nm Turn.lead_distance_ft Turn.radius_nm Turn.radius_ft
         Turn.turn_rate_dps Turn.time_to_turn_sec Turn.load_factor
         Turn.standard_rate_bank].
    repeat split; lra.
  - rewrite !(turn_banked _ _ _ Hb).
    cbn [Turn.lead_distance_nm Turn.lead_distance_ft Turn.radius_nm Turn.radius_ft
         Turn.turn_rate_dps Turn.time_to_turn_sec Turn.load_factor
         Turn.standard_rate_bank].
    replace (- course_change_deg * Turn.DEG_TO_RAD / 2.0)
      with (- (course_change_deg * Turn.DEG_TO_RAD / 2.0)) by (unfold Rdiv; ring).
    rewrite tan_neg, Rabs_Ropp.
    repeat split; unfold Rdiv; ring.
Qed.

(** X8: negating the bank angle of a turn that is not wings-level negates
    radius, turn rate and lead distance, and leaves load factor and
    standard-rate bank as they are; a wings-level result does not change
    at all. *)
Theorem turn_bank_mirror (tas_kts bank_deg course_change_deg : R) :
  let r := Turn.calculate_turn_performance tas_kts bank_deg course_change_deg in
  let r' := Turn.calculate_turn_performance tas_kts (- bank_deg) course_change_deg in
  (0.001 <= Rabs (tan (bank_deg * (PI / 180))) ->
     Turn.radius_nm r' = - Turn.radius_nm r /\
     Turn.radius_ft r' = - Turn.radius_ft r /\
     Turn.turn_rate_dps r' = - Turn.turn_rate_dps r /\
     Turn.lead_distance_nm r' = - Turn.lead_distance_nm r /\
     Turn.lead_distance_ft r' = - Turn.lead_distance_ft r /\
     Turn.load_factor r' = Turn.load_factor r /\
     Turn.standard_rate_bank r' = Turn.standard_rate_bank r) /\
  (Rabs (tan (bank_deg * (PI / 180))) < 0.001 -> r' = r).
Proof.
  intros r r'. subst r r'.
  assert (Hneg : - bank_deg * (PI / 180) = - (bank_deg * (PI / 180))) by ring.
  assert (Hcos : cos (- bank_deg * Turn.DEG_TO_RAD) = cos (bank_deg * Turn.DEG_TO_RAD)).
  { replace (- bank_deg * Turn.DEG_TO_RAD) with (- (bank_deg * Turn.DEG_TO_RAD)) by ring.
    apply cos_neg. }
  split.
  - intros Htan.
    assert (Hb : ~ Rabs (tan (bank_deg * (PI / 180))) < 0.001) by lra.
    assert (Hb' : ~ Rabs (tan (- bank_deg * (PI / 180))) < 0.001)
      by (rewrite Hneg, tan_neg, Rabs_Ropp; exact Hb).
    rewrite (turn_banked _ _ _ Hb), (turn_banked _ _ _ Hb').
    cbn [Turn.lead_distance_nm Turn.lead_distance_ft Turn.radius_nm Turn.radius_ft
         Turn.turn_rate_dps Turn.load_factor Turn.standard_rate_bank].
    rewrite Hneg, tan_neg, Hcos.
    pose proof (not_wings_level_tan_nonzero _ Htan) as Ht.
    set (t := tan (bank_deg * (PI / 180))) in *.
    assert (Hg : Turn.GRAVITY <> 0) by (unfold Turn.GRAVITY; lra).
    assert (Hinv : / (Turn.GRAVITY * - t) = - / (Turn.GRAVITY * t)).
    { replace (Turn.GRAVITY * - t) with (- (Turn.GRAVITY * t)) by ring.
      apply Rinv_opp. }
    unfold Rdiv. rewrite Hinv.
    repeat split; ring.
  - intros Hl.
    assert (Hl' : Rabs (tan (- bank_deg * (PI / 180))) < 0.001)
      by (rewrite Hneg, tan_neg, Rabs_Ropp; exact Hl).
    rewrite (turn_wings_level _ _ _ Hl), (turn_wings_level _ _ _ Hl').
    rewrite Hcos. reflexivity.
Qed.

Lemma turn_bank_mirror_witness :
  0.001 <= Rabs (tan (45 * (PI / 180))) /\
  Turn.turn_rate_dps (Turn.calculate_turn_performance 250 (- 45) 90) =
  - Turn.turn_rate_dps (Turn.calculate_turn_performance 250 45 90).
Proof.
  assert (H : 0.001 <= Rabs (tan (45 * (PI / 180))))
    by (rewrite tan_45_degrees, Rabs_right by lra; lra).
  split; [exact H |].
  destruct (proj1 (turn_bank_mirror 250 45 90) H) as (_ & _ & Hrate & _).
  exact Hrate.
Defined.

(** ** VNAV calculator: the remaining fields *)

Lemma floored_distance_ft_pos (distance_nm : R) : 0 < Rmax distance_nm 0.01 * 6076.12.
Proof.
  pose proof (Rmax_r distance_nm 0.01) as Hfloor. nra.
Qed.

Lemma floored_groundspeed_pos (groundspeed_kts : R) : 1 <= Rmax groundspeed_kts 1.
Proof. apply Rmax_r. Qed.

Lemma atan_sign (x : R) :
  (x < 0 -> atan x < 0) /\ (0 < x -> 0 < atan x).
Proof.
  split; intros Hx; pose proof (atan_increasing _ _ Hx) as H;
    rewrite atan_0 in H; exact H.
Qed.

Lemma slope_sign (delta distance_ft : R) :
  0 < distance_ft ->
  (delta < 0 -> delta / distance_ft < 0) /\
  (0 < delta -> 0 < delta / distance_ft).
Proof.
  intros Hd. pose proof (Rinv_0_lt_compat _ Hd) as Hinv.
  unfold Rdiv. split; intros H; nra.
Qed.

(** X9: for every valid VNAV input the required vertical speed is linear
    in the altitude change: times the floored distance in feet it equals
    101.27 times the floored groundspeed times the altitude change; so it
    is negative for a descent, zero in level flight and positive for a
    climb. *)
Theorem vnav_required_vs_linear
    (current_alt_ft target_alt_ft distance_nm groundspeed_kts : R) :
  0 <= distance_nm -> 0 < groundspeed_kts ->
  let r := Vnav.calculate_vnav current_alt_ft target_alt_ft distance_nm groundspeed_kts in
  Vnav.required_vs_fpm r * (Rmax distance_nm 0.01 * 6076.12) =
    101.27 * Rmax groundspeed_kts 1 * (target_alt_ft - current_alt_ft) /\
  (target_alt_ft < current_alt_ft -> Vnav.required_vs_fpm r < 0) /\
  (target_alt_ft = current_alt_ft -> Vnav.required_vs_fpm r = 0) /\
  (current_alt_ft < target_alt_ft -> 0 < Vnav.required_vs_fpm r).
Proof.
  intros _ _ r. subst r. rewrite vnav_required_vs, tan_atan.
  pose proof (floored_distance_ft_pos distance_nm) as Hd.
  pose proof (floored_groundspeed_pos groundspeed_kts) as Hg.
  set (d := Rmax distance_nm 0.01 * 6076.12) in *.
  set (g := Rmax groundspeed_kts 1) in *.
  destruct (slope_sign (target_alt_ft - current_alt_ft) d Hd) as [Hneg Hpos].
  repeat split.
  - field. lra.
  - intros Hlt. assert (Hs := Hneg ltac:(lra)). nra.
  - intros ->. unfold Rdiv. ring.
  - intros Hlt. assert (Hs := Hpos ltac:(lra)). nra.
Qed.

Lemma vnav_required_vs_linear_witness :
  (0 <= 100 /\ 0 < 450) /\
  Vnav.required_vs_fpm (Vnav.calculate_vnav 35000 10000 100 450) < 0.
Proof.
  assert (Hd : 0 <= 100) by lra.
  assert (Hg : 0 < 450) by lra.
  split; [exact (conj Hd Hg) |].
  destruct (vnav_required_vs_linear 35000 10000 100 450 Hd Hg) as (_ & Hneg & _).
  apply Hneg. lra.
Defined.

Lemma vnav_is_descent (current_alt_ft target_alt_ft distance_nm groundspeed_kts : R) :
  Vnav.is_descent
    (Vnav.calculate_vnav current_alt_ft target_alt_ft distance_nm groundspeed_kts) =
  Rlt_bool (target_alt_ft - current_alt_ft) 0.
Proof. reflexivity. Qed.

Lemma Rlt_bool_true (x y : R) : Rlt_bool x y = true <-> x < y.
Proof.
  unfold Rlt_bool. destruct (Rlt_dec x y); split; intros H;
    try assumption; try reflexivity; try discriminate; contradiction.
Qed.

Lemma Rle_bool_true (x y : R) : Rle_bool x y = true <-> x <= y.
Proof.
  unfold Rle_bool. destruct (Rle_dec x y); split; intros H;
    try assumption; try reflexivity; try discriminate; contradiction.
Qed.

Lemma Rge_bool_true (x y : R) : Rge_bool x y = true <-> y <= x.
Proof.
  unfold Rge_bool. destruct (Rge_dec x y); split; intros H;
    try reflexivity; try discriminate; lra.
Qed.

Lemma degrees_pos : 0 < 180 / PI.
Proof. pose proof PI_RGT_0. apply Rdiv_lt_0_compat; lra. Qed.

(** X10: for every valid VNAV input the flight-path angle lies strictly
    between -90 and 90 degrees, is negative exactly when [is_descent] is
    set, and is zero exactly in level flight. *)
Theorem vnav_flight_path_angle_range
    (current_alt_ft target_alt_ft distance_nm groundspeed_kts : R) :
  0 <= distance_nm -> 0 < groundspeed_kts ->
  let r := Vnav.calculate_vnav current_alt_ft target_alt_ft distance_nm groundspeed_kts in
  -90 < Vnav.flight_path_angle_deg r < 90 /\
  (Vnav.is_descent r = true <-> Vnav.flight_path_angle_deg r < 0) /\
  (Vnav.flight_path_angle_deg r = 0 <-> target_alt_ft = current_alt_ft).
Proof.
  intros _ _ r. subst r. rewrite vnav_flight_path_angle, vnav_is_descent.
  pose proof (floored_distance_ft_pos distance_nm) as Hd.
  set (d := Rmax distance_nm 0.01 * 6076.12) in *.
  set (delta := target_alt_ft - current_alt_ft).
  destruct (slope_sign delta d Hd) as [Hneg Hpos].
  destruct (atan_sign (delta / d)) as [Haneg Hapos].
  pose proof (atan_bound (delta / d)) as [Hlo Hhi].
  pose proof degrees_pos as Hk. pose proof PI_RGT_0 as Hpi.
  replace (atan (delta / d) * 180 / PI) with (atan (delta / d) * (180 / PI))
    by (unfold Rdiv; ring).
  assert (Hninety : PI / 2 * (180 / PI) = 90) by (field; lra).
  assert (Hzero : delta = 0 -> atan (delta / d) = 0).
  { intros ->. unfold Rdiv. rewrite Rmult_0_l. apply atan_0. }
  split; [split |]; [| | split; [| split]].
  - replace (-90) with (- PI / 2 * (180 / PI)) by (field; lra).
    apply Rmult_lt_compat_r; assumption.
  - rewrite <- Hninety. apply Rmult_lt_compat_r; assumption.
  - rewrite Rlt_bool_true. split.
    + intros Hdesc. specialize (Haneg (Hneg Hdesc)). nra.
    + intros Hfpa. destruct (Rlt_dec delta 0) as [Hlt | Hge]; [exact Hlt |].
      exfalso. destruct (Req_dec delta 0) as [Hz | Hnz].
      * rewrite (Hzero Hz) in Hfpa. lra.
      * assert (Hp : 0 < delta) by lra. specialize (Hapos (Hpos Hp)). nra.
  - intros Hfpa. unfold delta in *.
    destruct (Rtotal_order (target_alt_ft - current_alt_ft) 0) as [Hlt | [Hz | Hgt]].
    + specialize (Haneg (Hneg Hlt)). nra.
    + lra.
    + specialize (Hapos (Hpos Hgt)). nra.
  - intros Heq. rewrite Hzero by (unfold delta; lra). ring.
Qed.

Lemma vnav_flight_path_angle_range_witness :
  (0 <= 100 /\ 0 < 450) /\
  Vnav.flight_path_angle_deg (Vnav.calculate_vnav 35000 10000 100 450) < 0.
Proof.
  assert (Hd : 0 <= 100) by lra.
  assert (Hg : 0 < 450) by lra.
  split; [exact (conj Hd Hg) |].
  destruct (vnav_flight_path_angle_range 35000 10000 100 450 Hd Hg)
    as (_ & Hdesc & _).
  apply Hdesc. rewrite vnav_is_descent. apply Rlt_bool_true. lra.
Defined.

Lemma three_degrees_in_quadrant : 0 < 3 * (PI / 180) < PI / 2.
Proof. pose proof PI_RGT_0. split; lra. Qed.

Lemma tan_three_degrees_pos : 0 < tan (3 * (PI / 180)).
Proof.
  destruct three_degrees_in_quadrant as [Hlo Hhi].
  apply tan_gt_0; assumption.
Qed.

Lemma vnav_three_degrees : 3.0 * Vnav.DEG_TO_RAD = 3 * (PI / 180).
Proof. unfold Vnav.DEG_TO_RAD. replace 3.0 with 3 by lra. f_equal. f_equal. lra. Qed.

Lemma vnav_tod_distance (current_alt_ft target_alt_ft distance_nm groundspeed_kts : R) :
  Vnav.tod_distance_nm
    (Vnav.calculate_vnav current_alt_ft target_alt_ft distance_nm groundspeed_kts) =
  if Rlt_dec (target_alt_ft - current_alt_ft) 0
  then Rabs (target_alt_ft - current_alt_ft) / (6076.12 * tan (3 * (PI / 180)))
  else 0.
Proof.
  unfold Vnav.calculate_vnav. cbn [Vnav.tod_distance_nm].
  rewrite vnav_three_degrees. unfold Rlt_bool, Vnav.NM_TO_FT.
  destruct (Rlt_dec (target_alt_ft - current_alt_ft) 0); [reflexivity | lra].
Qed.

(** X11: for every valid VNAV input the top-of-descent distance is zero
    unless the target is below the current altitude; for a descent it is
    positive and, times 6076.12 tan(3 degrees), equals the altitude to
    lose. *)
Theorem vnav_top_of_descent
    (current_alt_ft target_alt_ft distance_nm groundspeed_kts : R) :
  0 <= distance_nm -> 0 < groundspeed_kts ->
  let r := Vnav.calculate_vnav current_alt_ft target_alt_ft distance_nm groundspeed_kts in
  (current_alt_ft <= target_alt_ft -> Vnav.tod_distance_nm r = 0) /\
  (target_alt_ft < current_alt_ft ->
     0 < Vnav.tod_distance_nm r /\
     Vnav.tod_distance_nm r * (6076.12 * tan (3 * (PI / 180))) =
       Vnav.altitude_to_lose_ft r).
Proof.
  intros _ _ r. subst r. rewrite vnav_tod_distance.
  pose proof tan_three_degrees_pos as Htan.
  destruct (Rlt_dec (target_alt_ft - current_alt_ft) 0) as [Hdesc | Hclimb]; split.
  - intros Hle. lra.
  - intros _. rewrite Rabs_left by exact Hdesc.
    unfold Vnav.calculate_vnav. cbn [Vnav.altitude_to_lose_ft].
    set (k := 6076.12 * tan (3 * (PI / 180))).
    assert (Hk : 0 < k) by (unfold k; nra).
    split.
    + apply Rdiv_lt_0_compat; lra.
    + field. lra.
  - intros _. reflexivity.
  - intros Hlt. lra.
Qed.

Lemma vnav_top_of_descent_witness :
  (0 <= 100 /\ 0 < 450 /\ 10000 < 35000) /\
  0 < Vnav.tod_distance_nm (Vnav.calculate_vnav 35000 10000 100 450).
Proof.
  assert (Hd : 0 <= 100) by lra.
  assert (Hg : 0 < 450) by lra.
  assert (Ha : 10000 < 35000) by lra.
  split; [exact (conj Hd (conj Hg Ha)) |].
  exact (proj1 (proj2 (vnav_top_of_descent 35000 10000 100 450 Hd Hg) Ha)).
Defined.

Lemma atan_lt_iff (x theta : R) :
  - (PI / 2) < theta < PI / 2 -> (atan x < theta <-> x < tan theta).
Proof.
  intros [Hlo Hhi]. pose proof (atan_bound x) as [Halo Hahi]. split.
  - intros Hlt. rewrite <- (tan_atan x).
    apply tan_increasing; lra.
  - intros Hlt. rewrite <- (atan_tan theta) by (split; assumption).
    apply atan_increasing. exact Hlt.
Qed.

(** X12: for a descent with valid input, the required path is steeper
    than 3 degrees exactly when the top-of-descent distance of the 3-degree
    path exceeds the floored distance to the constraint. *)
Theorem vnav_steeper_than_three_degrees
    (current_alt_ft target_alt_ft distance_nm groundspeed_kts : R) :
  0 <= distance_nm -> 0 < groundspeed_kts -> target_alt_ft < current_alt_ft ->
  let r := Vnav.calculate_vnav current_alt_ft target_alt_ft distance_nm groundspeed_kts in
  Vnav.flight_path_angle_deg r < -3 <->
  Rmax distance_nm 0.01 < Vnav.tod_distance_nm r.
Proof.
  intros _ _ Hdesc r. subst r.
  rewrite vnav_flight_path_angle, vnav_tod_distance.
  destruct (Rlt_dec (target_alt_ft - current_alt_ft) 0) as [_ | Hn]; [| lra].
  rewrite Rabs_left by lra.
  pose proof (floored_distance_ft_pos distance_nm) as Hd.
  pose proof (Rmax_r distance_nm 0.01) as Hfloor.
  pose proof tan_three_degrees_pos as Htan.
  pose proof three_degrees_in_quadrant as [Hq1 Hq2].
  pose proof PI_RGT_0 as Hpi. pose proof degrees_pos as Hk.
  set (d := Rmax distance_nm 0.01) in *.
  set (delta := target_alt_ft - current_alt_ft).
  set (t := tan (3 * (PI / 180))) in *.
  assert (Hangle : atan (delta / (d * 6076.12)) * 180 / PI < -3 <->
                   atan (delta / (d * 6076.12)) < - (3 * (PI / 180))).
  { replace (atan (delta / (d * 6076.12)) * 180 / PI)
      with (atan (delta / (d * 6076.12)) * (180 / PI)) by (unfold Rdiv; ring).
    replace (-3) with (- (3 * (PI / 180)) * (180 / PI)) by (field; lra).
    split; intros H.
    - apply Rmult_lt_reg_r with (180 / PI); assumption.
    - apply Rmult_lt_compat_r; assumption. }
  rewrite Hangle, atan_lt_iff by lra.
  rewrite tan_neg. fold t.
  assert (Hct : 0 < 6076.12 * t) by nra.
  split; intros H.
  - apply Rmult_lt_reg_r with (6076.12 * t); [exact Hct |].
    replace (- delta / (6076.12 * t) * (6076.12 * t)) with (- delta) by (field; lra).
    apply Rmult_lt_compat_r with (r := d * 6076.12) in H; [| exact Hd].
    replace (delta / (d * 6076.12) * (d * 6076.12)) with delta in H by (field; lra).
    nra.
  - apply Rmult_lt_compat_r with (r := 6076.12 * t) in H; [| exact Hct].
    replace (- delta / (6076.12 * t) * (6076.12 * t)) with (- delta) in H by (field; lra).
    apply Rmult_lt_reg_r with (d * 6076.12); [exact Hd |].
    replace (delta / (d * 6076.12) * (d * 6076.12)) with delta by (field; lra).
    nra.
Qed.

Lemma vnav_steeper_than_three_degrees_witness :
  (0 <= 100 /\ 0 < 450 /\ 10000 < 35000) /\
  (Vnav.flight_path_angle_deg (Vnav.calculate_vnav 35000 10000 100 450) < -3 <->
   Rmax 100 0.01 < Vnav.tod_distance_nm (Vnav.calculate_vnav 35000 10000 100 450)).
Proof.
  assert (Hd : 0 <= 100) by lra.
  assert (Hg : 0 < 450) by lra.
  assert (Ha : 10000 < 35000) by lra.
  split; [exact (conj Hd (conj Hg Ha)) |].
  exact (vnav_steeper_than_three_degrees 35000 10000 100 450 Hd Hg Ha).
Defined.

Lemma vnav_time_to_constraint
    (current_alt_ft target_alt_ft distance_nm groundspeed_kts : R) :
  Vnav.time_to_constraint_min
    (Vnav.calculate_vnav current_alt_ft target_alt_ft distance_nm groundspeed_kts) =
  Rmax distance_nm 0.01 / Rmax groundspeed_kts 1 * 60.
Proof.
  unfold Vnav.calculate_vnav. cbn [Vnav.time_to_constraint_min].
  rewrite !floor_is_Rmax. replace 1.0 with 1 by lra. replace 60.0 with 60 by lra.
  reflexivity.
Qed.

(** X13: for every valid VNAV input the time to the constraint is
    positive, at most 60 minutes per floored nautical mile, and times the
    floored groundspeed equals 60 times the floored distance; flying the
    required vertical speed for that time changes the altitude by
    6076.2/6076.12 of the altitude change asked for. *)
Theorem vnav_time_to_constraint_product
    (current_alt_ft target_alt_ft distance_nm groundspeed_kts : R) :
  0 <= distance_nm -> 0 < groundspeed_kts ->
  let r := Vnav.calculate_vnav current_alt_ft target_alt_ft distance_nm groundspeed_kts in
  0 < Vnav.time_to_constraint_min r <= 60 * Rmax distance_nm 0.01 /\
  Vnav.time_to_constraint_min r * Rmax groundspeed_kts 1 = 60 * Rmax distance_nm 0.01 /\
  Vnav.required_vs_fpm r * Vnav.time_to_constraint_min r * 6076.12 =
    6076.2 * (target_alt_ft - current_alt_ft).
Proof.
  intros _ _ r. subst r.
  rewrite vnav_time_to_constraint, vnav_required_vs, tan_atan.
  pose proof (Rmax_r distance_nm 0.01) as Hd.
  pose proof (floored_groundspeed_pos groundspeed_kts) as Hg.
  set (d := Rmax distance_nm 0.01) in *.
  set (g := Rmax groundspeed_kts 1) in *.
  assert (Hinv : 0 < / g <= 1).
  { split; [apply Rinv_0_lt_compat; lra |].
    rewrite <- Rinv_1. apply Rinv_le_contravar; lra. }
  repeat split.
  - unfold Rdiv. nra.
  - unfold Rdiv. nra.
  - field. lra.
  - replace 6076.2 with (101.27 * 60) by lra.
    assert (Hc : 6076.12 <> 0) by lra.
    generalize dependent 6076.12. generalize 101.27.
    intros k c Hc. field. repeat split; lra.
Qed.

Lemma vnav_time_to_constraint_product_witness :
  (0 <= 100 /\ 0 < 450) /\
  0 < Vnav.time_to_constraint_min (Vnav.calculate_vnav 35000 10000 100 450).
Proof.
  assert (Hd : 0 <= 100) by lra.
  assert (Hg : 0 < 450) by lra.
  split; [exact (conj Hd Hg) |].
  exact (proj1 (proj1 (vnav_time_to_constraint_product 35000 10000 100 450 Hd Hg))).
Defined.

Lemma vnav_on_idle_path (current_alt_ft target_alt_ft distance_nm groundspeed_kts : R) :
  let r := Vnav.calculate_vnav current_alt_ft target_alt_ft distance_nm groundspeed_kts in
  Vnav.on_idle_path r =
  if Vnav.is_descent r
  then Rge_bool (Rabs (Vnav.flight_path_angle_deg r)) 2.0
       && Rle_bool (Rabs (Vnav.flight_path_angle_deg r)) 4.0
  else Rge_bool (Vnav.flight_path_angle_deg r) 0.5
       && Rle_bool (Vnav.flight_path_angle_deg r) 15.0.
Proof. reflexivity. Qed.

(** X14: for every valid VNAV input, [on_idle_path] is set exactly when
    the target is below the current altitude and the flight-path angle is
    between -4 and -2 degrees, or the target is not below and the angle is
    between 0.5 and 15 degrees; in level flight it is never set. *)
Theorem vnav_on_idle_path_bands
    (current_alt_ft target_alt_ft distance_nm groundspeed_kts : R) :
  0 <= distance_nm -> 0 < groundspeed_kts ->
  let r := Vnav.calculate_vnav current_alt_ft target_alt_ft distance_nm groundspeed_kts in
  (Vnav.on_idle_path r = true <->
     (target_alt_ft < current_alt_ft /\ -4 <= Vnav.flight_path_angle_deg r <= -2) \/
     (current_alt_ft < target_alt_ft /\ 0.5 <= Vnav.flight_path_angle_deg r <= 15)) /\
  (target_alt_ft = current_alt_ft -> Vnav.on_idle_path r = false).
Proof.
  intros _ _ r. subst r.
  pose proof (vnav_on_idle_path current_alt_ft target_alt_ft distance_nm groundspeed_kts)
    as Hidle.
  cbv zeta in Hidle. rewrite Hidle. clear Hidle.
  rewrite vnav_is_descent, vnav_flight_path_angle.
  pose proof (floored_distance_ft_pos distance_nm) as Hd.
  set (d := Rmax distance_nm 0.01 * 6076.12) in *.
  set (delta := target_alt_ft - current_alt_ft).
  destruct (slope_sign delta d Hd) as [Hneg Hpos].
  destruct (atan_sign (delta / d)) as [Haneg Hapos].
  pose proof degrees_pos as Hk.
  assert (Hfpa : atan (delta / d) * 180 / PI = atan (delta / d) * (180 / PI))
    by (unfold Rdiv; ring).
  rewrite Hfpa. set (fpa := atan (delta / d) * (180 / PI)).
  assert (Hsneg : delta < 0 -> fpa < 0)
    by (intros H; specialize (Haneg (Hneg H)); unfold fpa; nra).
  assert (Hspos : 0 < delta -> 0 < fpa)
    by (intros H; specialize (Hapos (Hpos H)); unfold fpa; nra).
  assert (Hszero : delta = 0 -> fpa = 0).
  { intros Hz. unfold fpa. rewrite Hz. unfold Rdiv at 1.
    rewrite Rmult_0_l, atan_0. ring. }
  unfold Rlt_bool.
  destruct (Rlt_dec delta 0) as [Hdesc | Hup]; split.
  - rewrite Rabs_left by (apply Hsneg; exact Hdesc).
    rewrite andb_true_iff, Rge_bool_true, Rle_bool_true.
    unfold delta in Hdesc. split.
    + intros [H2 H4]. left. repeat split; lra.
    + intros [(_ & H4 & H2) | (Hclimb & _)]; [split; lra | lra].
  - intros Heq. unfold delta in Hdesc. lra.
  - rewrite andb_true_iff, Rge_bool_true, Rle_bool_true.
    unfold delta in Hup. split.
    + intros [Hlo Hhi]. right. repeat split; try lra.
      destruct (Req_dec delta 0) as [Hz | Hnz].
      * rewrite (Hszero Hz) in Hlo. lra.
      * unfold delta in Hnz. lra.
    + intros [(Hdesc & _) | (_ & Hlo & Hhi)]; [lra | split; lra].
  - intros Heq. rewrite Hszero by (unfold delta; lra).
    apply andb_false_iff. left.
    unfold Rge_bool. destruct (Rge_dec 0 0.5); [lra | reflexivity].
Qed.

Lemma vnav_on_idle_path_bands_witness :
  (0 <= 100 /\ 0 < 450 /\ 10000 = 10000) /\
  Vnav.on_idle_path (Vnav.calculate_vnav 10000 10000 100 450) = false.
Proof.
  assert (Hd : 0 <= 100) by lra.
  assert (Hg : 0 < 450) by lra.
  split; [exact (conj Hd (conj Hg eq_refl)) |].
  exact (proj2 (vnav_on_idle_path_bands 10000 10000 100 450 Hd Hg) eq_refl).
Defined.

(** ** VNAV calculator: [calculate_vnav_helpers] and [main] *)

Lemma vnav_five_degrees : 5.0 * Vnav.DEG_TO_RAD = 5 * (PI / 180).
Proof. unfold Vnav.DEG_TO_RAD. replace 5.0 with 5 by lra. f_equal. f_equal. lra. Qed.

(** X15: for a positive groundspeed the two reference vertical speeds are
    descents, the 5-degree one the steeper: vs_for_5deg < vs_for_3deg < 0. *)
Theorem vnav_reference_descent_rates
    (groundspeed_kts current_vs_fpm altitude_change_ft : R) :
  0 < groundspeed_kts ->
  let h := Vnav.calculate_vnav_helpers groundspeed_kts current_vs_fpm altitude_change_ft in
  Vnav.vs_for_5deg h < Vnav.vs_for_3deg h /\ Vnav.vs_for_3deg h < 0.
Proof.
  intros Hg h. subst h. unfold Vnav.calculate_vnav_helpers.
  cbn [Vnav.vs_for_5deg Vnav.vs_for_3deg].
  unfold Vnav.THREE_DEG_RAD, Vnav.FIVE_DEG_RAD.
  rewrite vnav_three_degrees, vnav_five_degrees.
  pose proof tan_three_degrees_pos as H3. pose proof PI_RGT_0 as Hpi.
  assert (H35 : tan (3 * (PI / 180)) < tan (5 * (PI / 180)))
    by (apply tan_increasing; lra).
  set (t3 := tan (3 * (PI / 180))) in *. set (t5 := tan (5 * (PI / 180))) in *.
  assert (Hk : 0 < 101.27 * groundspeed_kts) by lra.
  split; nra.
Qed.

Lemma vnav_reference_descent_rates_witness :
  0 < 450 /\ Vnav.vs_for_3deg (Vnav.calculate_vnav_helpers 450 (-1500) (-25000)) < 0.
Proof.
  assert (Hg : 0 < 450) by lra.
  split; [exact Hg |].
  exact (proj2 (vnav_reference_descent_rates 450 (-1500) (-25000) Hg)).
Defined.

Lemma vnav_distance_remaining (groundspeed_kts current_vs_fpm altitude_change_ft : R) :
  Vnav.distance_remaining_at_current_vs
    (Vnav.calculate_vnav_helpers groundspeed_kts current_vs_fpm altitude_change_ft) =
  if Rgt_dec (Rabs current_vs_fpm) 10.0 then
    if Rgt_dec groundspeed_kts 1.0 then
      if Rlt_dec (altitude_change_ft / current_vs_fpm * groundspeed_kts / 60.0) 0
      then 999.9
      else altitude_change_ft / current_vs_fpm * groundspeed_kts / 60.0
    else 999.9
  else 999.9.
Proof. reflexivity. Qed.

Lemma quotient_sign (a b : R) :
  b <> 0 -> (a / b < 0 <-> a * b < 0).
Proof.
  intros Hb.
  assert (Hsq : 0 < b * b) by nra.
  assert (Heq : a * b = a / b * (b * b)) by (field; exact Hb).
  rewrite Heq. split; intros H; nra.
Qed.

(** X16: the projected distance at the current vertical speed is never
    negative.  It is the sentinel 999.9 when the vertical speed is at most
    10 ft/min in magnitude, when the groundspeed is at most 1 kt, and when
    the vertical speed points away from the target altitude; otherwise,
    times 60 times the vertical speed it equals the altitude change times
    the groundspeed. *)
Theorem vnav_distance_at_current_vs
    (groundspeed_kts current_vs_fpm altitude_change_ft : R) :
  let h := Vnav.calculate_vnav_helpers groundspeed_kts current_vs_fpm altitude_change_ft in
  let d := Vnav.distance_remaining_at_current_vs h in
  0 <= d /\
  (Rabs current_vs_fpm <= 10 \/ groundspeed_kts <= 1 -> d = 999.9) /\
  (10 < Rabs current_vs_fpm -> 1 < groundspeed_kts ->
     (altitude_change_ft * current_vs_fpm < 0 -> d = 999.9) /\
     (0 <= altitude_change_ft * current_vs_fpm ->
        d * (60 * current_vs_fpm) = altitude_change_ft * groundspeed_kts)).
Proof.
  intros h d. subst d h. rewrite vnav_distance_remaining.
  destruct (Rgt_dec (Rabs current_vs_fpm) 10.0) as [Hvs | Hvs];
    [destruct (Rgt_dec groundspeed_kts 1.0) as [Hgs | Hgs] |].
  - assert (Hnz : current_vs_fpm <> 0).
    { intros Hz. rewrite Hz, Rabs_R0 in Hvs. lra. }
    pose proof (quotient_sign altitude_change_ft current_vs_fpm Hnz) as Hsign.
    set (q := altitude_change_ft / current_vs_fpm) in *.
    assert (Hd : q * groundspeed_kts / 60.0 < 0 <-> q < 0).
    { unfold Rdiv. split; intros H; nra. }
    destruct (Rlt_dec (q * groundspeed_kts / 60.0) 0) as [Hneg | Hpos].
    + split; [lra | split; [intros [H | H]; lra |]].
      intros _ _. split; [reflexivity |].
      intros Hsame. apply Hd, Hsign in Hneg. lra.
    + split; [lra | split; [intros [H | H]; lra |]].
      intros _ _. split.
      * intros Hopp. apply Hsign, Hd in Hopp. contradiction.
      * intros _. unfold q. replace 60.0 with 60 by lra. field. exact Hnz.
  - split; [lra | split; [reflexivity |]]. intros _ Hg. lra.
  - split; [lra | split; [reflexivity |]]. intros Hv. lra.
Qed.

Lemma vnav_distance_at_current_vs_witness :
  (10 < Rabs (-1500) /\ 1 < 450 /\ 0 <= -25000 * -1500) /\
  Vnav.distance_remaining_at_current_vs (Vnav.calculate_vnav_helpers 450 (-1500) (-25000))
  * (60 * -1500) = -25000 * 450.
Proof.
  assert (Hv : 10 < Rabs (-1500)) by (rewrite Rabs_left by lra; lra).
  assert (Hg : 1 < 450) by lra.
  assert (Hs : 0 <= -25000 * -1500) by lra.
  split; [exact (conj Hv (conj Hg Hs)) |].
  destruct (vnav_distance_at_current_vs 450 (-1500) (-25000)) as (_ & _ & Hproj).
  exact (proj2 (Hproj Hv Hg) Hs).
Defined.

Lemma keys_print_json_nonfinite (json_keys : list string)
    (value : string -> json_value) :
  keys (print_json_nonfinite json_keys value) = json_keys.
Proof.
  unfold print_json_nonfinite, keys. rewrite map_map. cbn [fst]. apply map_id.
Qed.

Lemma vnav_json_keys (nonfinite : list double -> string -> json_value)
    (current_alt_ft target_alt_ft distance_nm groundspeed_kts current_vs_fpm : double) :
  keys (Vnav.vnav_json nonfinite current_alt_ft target_alt_ft distance_nm
          groundspeed_kts current_vs_fpm) = Vnav.json_keys.
Proof.
  destruct current_alt_ft, target_alt_ft, distance_nm, groundspeed_kts, current_vs_fpm;
    first [reflexivity | apply keys_print_json_nonfinite].
Qed.

Lemma vnav_accepted_passes (stod : string -> thrown double) (args : list string)
    (current_alt_ft target_alt_ft distance_nm groundspeed_kts current_vs_fpm : R) :
  vnav_accepted stod args current_alt_ft target_alt_ft distance_nm groundspeed_kts
    current_vs_fpm <->
  vnav_passes stod args current_alt_ft target_alt_ft distance_nm groundspeed_kts
    current_vs_fpm.
Proof.
  unfold vnav_accepted, vnav_passes.
  split; intros (a0 & a1 & a2 & a3 & Hargs & H0 & H1 & H2 & H3 & Hd & Hg);
    exists a0, a1, a2, a3; repeat split; try assumption.
  - destruct Hargs as [[Hargs Hvs] | Hfive]; [left | right; exact Hfive].
    split; [exact Hargs | rewrite Hvs; reflexivity].
  - apply double_lt_finite. exact Hd.
  - apply double_le_finite. exact Hg.
  - destruct Hargs as [[Hargs Hvs] | Hfive]; [left | right; exact Hfive].
    split; [exact Hargs | injection Hvs as Hvs; exact Hvs].
  - apply double_lt_finite. exact Hd.
  - apply double_le_finite. exact Hg.
Qed.

Lemma vnav_main_passes (stod : string -> thrown double)
    (nonfinite : list double -> string -> json_value) (program_name : string)
    (args : list string)
    (current_alt_ft target_alt_ft distance_nm groundspeed_kts current_vs_fpm : double) :
  vnav_passes stod args current_alt_ft target_alt_ft distance_nm groundspeed_kts
    current_vs_fpm ->
  Vnav.main stod nonfinite program_name args =
  {| exit_code := 0;
     stdout := [Vnav.vnav_json nonfinite current_alt_ft target_alt_ft distance_nm
                  groundspeed_kts current_vs_fpm];
     stderr := [] |}.
Proof.
  intros (a0 & a1 & a2 & a3 & Hargs & H0 & H1 & H2 & H3 & Hd & Hg).
  destruct Hargs as [[-> ->] | (a4 & -> & H4)];
    unfold Vnav.main, Vnav.main_try, Vnav.parse_double;
    rewrite H0, H1, H2, H3, ?H4; cbn [bind];
    rewrite Hd, Hg; reflexivity.
Qed.

Lemma vnav_main_accepts_any (stod : string -> thrown double)
    (nonfinite : list double -> string -> json_value) (program_name : string)
    (args : list string)
    (current_alt_ft target_alt_ft distance_nm groundspeed_kts current_vs_fpm : R) :
  vnav_accepted stod args current_alt_ft target_alt_ft distance_nm groundspeed_kts
    current_vs_fpm ->
  Vnav.main stod nonfinite program_name args =
  vnav_success current_alt_ft target_alt_ft distance_nm groundspeed_kts current_vs_fpm.
Proof.
  intros Hacc. apply vnav_accepted_passes in Hacc.
  rewrite (vnav_main_passes _ nonfinite program_name _ _ _ _ _ _ Hacc). reflexivity.
Qed.

Lemma vnav_main_try_cases (stod : string -> thrown double)
    (nonfinite : list double -> string -> json_value) (program_name : string)
    (args0 args1 args2 args3 : string) (args4 : option string) :
  let args := match args4 with
              | None => [args0; args1; args2; args3]
              | Some a => [args0; args1; args2; args3; a]
              end in
  (exists current_alt_ft target_alt_ft distance_nm groundspeed_kts current_vs_fpm,
     vnav_passes stod args current_alt_ft target_alt_ft distance_nm groundspeed_kts
       current_vs_fpm) \/
  failure (Vnav.main stod nonfinite program_name args).
Proof.
  intros args.
  assert (Hmain : Vnav.main stod nonfinite program_name args =
                  match Vnav.main_try stod nonfinite args0 args1 args2 args3 args4 with
                  | Returned o => o
                  | Raised what =>
                      {| exit_code := 1; stdout := [];
                         stderr := ("Error: " ++ what)%string
                                   :: Vnav.print_usage program_name |}
                  end)
    by (subst args; destruct args4; reflexivity).
  rewrite Hmain. clear Hmain.
  unfold Vnav.main_try, Vnav.parse_double.
  destruct (stod args0) as [cur | w0] eqn:H0; cbn [bind];
    [| right; repeat split; cbn; discriminate || reflexivity].
  destruct (stod args1) as [tgt | w1] eqn:H1; cbn [bind];
    [| right; repeat split; cbn; discriminate || reflexivity].
  destruct (stod args2) as [d | w2] eqn:H2; cbn [bind];
    [| right; repeat split; cbn; discriminate || reflexivity].
  destruct (stod args3) as [gs | w3] eqn:H3; cbn [bind];
    [| right; repeat split; cbn; discriminate || reflexivity].
  assert (Hrest : forall vs,
            (args4 = None /\ vs = Finite 0.0 \/
             exists a, args4 = Some a /\ stod a = Returned vs) ->
            (exists cur' tgt' d' gs' vs',
               vnav_passes stod args cur' tgt' d' gs' vs') \/
            failure
              (match
                 (if double_lt d 0
                  then Returned {| exit_code := 1; stdout := [];
                                   stderr := ["Error: Distance cannot be negative"%string] |}
                  else if double_le gs 0
                  then Returned {| exit_code := 1; stdout := [];
                                   stderr := ["Error: Groundspeed must be positive"%string] |}
                  else Returned {| exit_code := 0;
                                   stdout := [Vnav.vnav_json nonfinite cur tgt d gs vs];
                                   stderr := [] |})
               with
               | Returned o => o
               | Raised what =>
                   {| exit_code := 1; stdout := [];
                      stderr := ("Error: " ++ what)%string
                                :: Vnav.print_usage program_name |}
               end)).
  { intros vs Hvs.
    destruct (double_lt d 0) eqn:Hd;
      [right; repeat split; cbn; discriminate || reflexivity |].
    destruct (double_le gs 0) eqn:Hg;
      [right; repeat split; cbn; discriminate || reflexivity |].
    left. exists cur, tgt, d, gs, vs, args0, args1, args2, args3.
    repeat split; try assumption.
    subst args. destruct Hvs as [[-> ->] | (a & -> & Ha)].
    - left. split; reflexivity.
    - right. exists a. split; [reflexivity | exact Ha]. }
  destruct args4 as [a |].
  - destruct (stod a) as [vs | w4] eqn:H4; cbn [bind];
      [| right; repeat split; cbn; discriminate || reflexivity].
    apply (Hrest vs). right. exists a. split; [reflexivity | exact H4].
  - cbn [bind]. apply (Hrest (Finite 0.0)). left. split; reflexivity.
Qed.

Lemma vnav_main_cases (stod : string -> thrown double)
    (nonfinite : list double -> string -> json_value) (program_name : string)
    (args : list string) :
  (exists current_alt_ft target_alt_ft distance_nm groundspeed_kts current_vs_fpm,
     vnav_passes stod args current_alt_ft target_alt_ft distance_nm groundspeed_kts
       current_vs_fpm) \/
  failure (Vnav.main stod nonfinite program_name args).
Proof.
  destruct args as [| a0 [| a1 [| a2 [| a3 [| a4 [| a5 rest]]]]]];
    try (right; repeat split; cbn; discriminate || reflexivity).
  - exact (vnav_main_try_cases stod nonfinite program_name a0 a1 a2 a3 None).
  - exact (vnav_main_try_cases stod nonfinite program_name a0 a1 a2 a3 (Some a4)).
Qed.

(** X17: the VNAV calculator exits with code 0, printing one JSON object
    with the eleven keys of [print_json] and nothing on standard error,
    exactly when it is given four or five arguments that all parse, to
    doubles on which neither [distance_nm < 0] nor [groundspeed_kts <= 0]
    is true; in every other case it exits with code 1, has written to
    standard error and has written no JSON.  On finite values the two
    tests pass exactly when [distance_nm >= 0] and [groundspeed_kts > 0],
    and the object is then built from [calculate_vnav] and
    [calculate_vnav_helpers]; a NaN passes both tests. *)
Theorem vnav_main_exit_codes
    (stod : string -> thrown double)
    (nonfinite : list double -> string -> json_value)
    (program_name : string) (args : list string) :
  let o := Vnav.main stod nonfinite program_name args in
  (forall current_alt_ft target_alt_ft distance_nm groundspeed_kts current_vs_fpm : double,
     vnav_passes stod args current_alt_ft target_alt_ft distance_nm groundspeed_kts
       current_vs_fpm ->
     let object := Vnav.vnav_json nonfinite current_alt_ft target_alt_ft distance_nm
                     groundspeed_kts current_vs_fpm in
     o = {| exit_code := 0; stdout := [object]; stderr := [] |} /\
     keys object = Vnav.json_keys) /\
  (forall current_alt_ft target_alt_ft distance_nm groundspeed_kts current_vs_fpm : R,
     vnav_passes stod args current_alt_ft target_alt_ft distance_nm groundspeed_kts
       current_vs_fpm <->
     vnav_accepted stod args current_alt_ft target_alt_ft distance_nm groundspeed_kts
       current_vs_fpm) /\
  (forall current_alt_ft target_alt_ft distance_nm groundspeed_kts current_vs_fpm : R,
     vnav_accepted stod args current_alt_ft target_alt_ft distance_nm groundspeed_kts
       current_vs_fpm ->
     o = vnav_success current_alt_ft target_alt_ft distance_nm groundspeed_kts
           current_vs_fpm) /\
  (double_lt NaN 0 = false /\ double_le NaN 0 = false) /\
  (exit_code o = 0%Z ->
     exists current_alt_ft target_alt_ft distance_nm groundspeed_kts current_vs_fpm,
       vnav_passes stod args current_alt_ft target_alt_ft distance_nm groundspeed_kts
         current_vs_fpm) /\
  ((forall current_alt_ft target_alt_ft distance_nm groundspeed_kts current_vs_fpm,
      ~ vnav_passes stod args current_alt_ft target_alt_ft distance_nm groundspeed_kts
          current_vs_fpm) ->
   failure o).
Proof.
  intros o. subst o. split; [| split; [| split; [| split; [| split]]]].
  - intros cur tgt d gs vs Hpass object. subst object. split.
    + apply vnav_main_passes. exact Hpass.
    + apply vnav_json_keys.
  - intros cur tgt d gs vs. symmetry. apply vnav_accepted_passes.
  - intros cur tgt d gs vs Hacc. apply vnav_main_accepts_any. exact Hacc.
  - split; reflexivity.
  - intros Hzero.
    destruct (vnav_main_cases stod nonfinite program_name args) as [Hpass | (Hone & _)].
    + exact Hpass.
    + rewrite Hone in Hzero. discriminate.
  - intros Hrej.
    destruct (vnav_main_cases stod nonfinite program_name args)
      as [(cur & tgt & d & gs & vs & Hpass) | Hfail].
    + exfalso. exact (Hrej cur tgt d gs vs Hpass).
    + exact Hfail.
Qed.

Lemma vnav_main_exit_codes_witness :
  vnav_passes stod_more_examples ["35000"; "10000"; "nan"; "450"]%string
    35000 10000 NaN 450 0.0 /\
  exit_code (Vnav.main stod_more_examples (fun _ _ => JNumber NaN) "vnav_calculator"
               ["35000"; "10000"; "nan"; "450"]%string) = 0%Z /\
  vnav_accepted stod_more_examples ["35000"; "10000"; "100"; "450"; "-1500"]%string
    35000 10000 100 450 (-1500) /\
  exit_code (Vnav.main stod_more_examples (fun _ _ => JNumber NaN) "vnav_calculator"
               ["35000"; "10000"; "100"; "450"; "-1500"]%string) = 0%Z /\
  failure (Vnav.main stod_more_examples (fun _ _ => JNumber NaN) "vnav_calculator"
             ["35000"; "10000"; "100"]%string).
Proof.
  assert (Hnan : vnav_passes stod_more_examples ["35000"; "10000"; "nan"; "450"]%string
                   35000 10000 NaN 450 0.0).
  { exists "35000"%string, "10000"%string, "nan"%string, "450"%string.
    split; [left; split; reflexivity |].
    repeat split; try reflexivity. apply double_le_finite. lra. }
  assert (Hacc : vnav_accepted stod_more_examples
                   ["35000"; "10000"; "100"; "450"; "-1500"]%string
                   35000 10000 100 450 (-1500)).
  { exists "35000"%string, "10000"%string, "100"%string, "450"%string.
    split; [right; exists "-1500"%string; split; reflexivity |].
    repeat split; try reflexivity; lra. }
  assert (Hrej : forall cur tgt d gs vs,
             ~ vnav_passes stod_more_examples ["35000"; "10000"; "100"]%string
                 cur tgt d gs vs).
  { intros cur tgt d gs vs (a0 & a1 & a2 & a3 & Hargs & _).
    destruct Hargs as [[Hargs _] | (a4 & Hargs & _)]; discriminate Hargs. }
  split; [exact Hnan | split; [| split; [exact Hacc | split]]].
  - destruct (proj1 (vnav_main_exit_codes stod_more_examples (fun _ _ => JNumber NaN)
                       "vnav_calculator" _) _ _ _ _ _ Hnan) as [Hrun _].
    rewrite Hrun. reflexivity.
  - rewrite (proj1 (proj2 (proj2 (vnav_main_exit_codes stod_more_examples
                                    (fun _ _ => JNumber NaN) "vnav_calculator" _)))
               _ _ _ _ _ Hacc).
    reflexivity.
  - exact (proj2 (proj2 (proj2 (proj2 (proj2
             (vnav_main_exit_codes stod_more_examples (fun _ _ => JNumber NaN)
                "vnav_calculator" _))))) Hrej).
Defined.

(** X18: when the optional fifth argument is left out, a successful run
    of the VNAV calculator prints the sentinel 999.9 under the key
    [distance_at_current_vs_nm]. *)
Theorem vnav_default_vertical_speed
    (stod : string -> thrown double)
    (nonfinite : list double -> string -> json_value) (program_name : string)
    (args0 args1 args2 args3 : string)
    (current_alt_ft target_alt_ft distance_nm groundspeed_kts : R) :
  stod args0 = Returned current_alt_ft ->
  stod args1 = Returned target_alt_ft ->
  stod args2 = Returned distance_nm ->
  stod args3 = Returned groundspeed_kts ->
  0 <= distance_nm -> 0 < groundspeed_kts ->
  exists o,
    stdout (Vnav.main stod nonfinite program_name [args0; args1; args2; args3]) = [o] /\
    In ("distance_at_current_vs_nm"%string, JNumber 999.9) o.
Proof.
  intros H0 H1 H2 H3 Hd Hg.
  rewrite (vnav_main_accepts stod nonfinite program_name
             _ _ _ _ _ _ _ _ H0 H1 H2 H3 Hd Hg).
  unfold vnav_success. cbn [stdout].
  eexists. split; [reflexivity |].
  unfold Vnav.print_json. do 10 right. left.
  rewrite vnav_distance_remaining.
  destruct (Rgt_dec (Rabs 0.0) 10.0) as [Hbig | _]; [| reflexivity].
  replace 0.0 with 0 in Hbig by lra. rewrite Rabs_R0 in Hbig. lra.
Qed.

Lemma vnav_default_vertical_speed_witness :
  (0 <= 100 /\ 0 < 450) /\
  exists o,
    stdout (Vnav.main stod_more_examples (fun _ _ => JNumber NaN) "vnav_calculator"
              ["35000"; "10000"; "100"; "450"]%string) = [o] /\
    In ("distance_at_current_vs_nm"%string, JNumber 999.9) o.
Proof.
  assert (Hd : 0 <= 100) by lra.
  assert (Hg : 0 < 450) by lra.
  split; [exact (conj Hd Hg) |].
  exact (vnav_default_vertical_speed stod_more_examples (fun _ _ => JNumber NaN)
           "vnav_calculator" "35000" "10000" "100" "450" 35000 10000 100 450
           eq_refl eq_refl eq_refl eq_refl Hd Hg).
Defined.

(** ** Wind calculator: [normalize_angle], drift, components and [main] *)

(** X19: [normalize_angle] returns an angle of [0, 360) that differs from
    its argument by a whole number of turns; it leaves angles of [0, 360)
    alone and is idempotent. *)
Theorem normalize_angle_canonical (angle : R) :
  0 <= Wind.normalize_angle angle < 360 /\
  congruent_mod_360 angle (Wind.normalize_angle angle) /\
  (0 <= angle < 360 -> Wind.normalize_angle angle = angle) /\
  Wind.normalize_angle (Wind.normalize_angle angle) = Wind.normalize_angle angle.
Proof.
  split; [apply normalize_angle_range |].
  split; [apply normalize_angle_congruent |].
  split; [apply normalize_angle_fixed |].
  apply normalize_angle_fixed, normalize_angle_range.
Qed.

Lemma normalize_angle_canonical_witness :
  0 <= 270 < 360 /\ Wind.normalize_angle 270 = 270.
Proof.
  assert (H : 0 <= 270 < 360) by lra.
  split; [exact H |].
  exact (proj1 (proj2 (proj2 (normalize_angle_canonical 270))) H).
Defined.

Lemma congruent_mod_360_minus (a a' b b' : R) :
  congruent_mod_360 a a' -> congruent_mod_360 b b' ->
  congruent_mod_360 (a - b) (a' - b').
Proof.
  intros (k & Hk) (l & Hl). exists (k - l)%Z. rewrite minus_IZR. lra.
Qed.

(** The angle that [calculate_wind] takes for the difference of two
    directions: [normalize_angle] of the difference of the normalized
    directions, moved to (-180, 180]. *)
Lemma relative_angle_spec (a b : R) :
  let n := Wind.normalize_angle (Wind.normalize_angle a - Wind.normalize_angle b) in
  let rel := if Rgt_dec n 180.0 then n - 360.0 else n in
  -180 < rel <= 180 /\ congruent_mod_360 (a - b) rel.
Proof.
  intros n rel.
  pose proof (normalize_angle_range
                (Wind.normalize_angle a - Wind.normalize_angle b)) as [Hlo Hhi].
  assert (Hn : congruent_mod_360 (a - b) n).
  { apply congruent_mod_360_trans
      with (Wind.normalize_angle a - Wind.normalize_angle b).
    - apply congruent_mod_360_minus; apply normalize_angle_congruent.
    - apply normalize_angle_congruent. }
  fold n in Hlo, Hhi. subst rel.
  destruct (Rgt_dec n 180.0) as [Hbig | Hsmall].
  - split; [lra |].
    destruct Hn as (k & Hk). exists (k - 1)%Z. rewrite minus_IZR. lra.
  - split; [lra | exact Hn].
Qed.

(** X20: the drift angle lies in (-180, 180] and differs from track minus
    heading by a whole number of turns; it is 0 when track and heading
    are the same direction. *)
Theorem wind_drift_range (track heading wind_dir wind_speed : R) :
  let r := Wind.calculate_wind track heading wind_dir wind_speed in
  -180 < Wind.drift r <= 180 /\
  congruent_mod_360 (track - heading) (Wind.drift r) /\
  (congruent_mod_360 track heading -> Wind.drift r = 0).
Proof.
  intros r. subst r. unfold Wind.calculate_wind. cbn [Wind.drift].
  pose proof (relative_angle_spec track heading) as Hrel. cbv zeta in Hrel.
  destruct Hrel as [Hrange Hcong].
  split; [exact Hrange | split; [exact Hcong |]].
  intros (k & Hk).
  match goal with
  | |- ?d = 0 => set (drift := d) in *
  end.
  destruct Hcong as (l & Hl).
  assert (Heq : drift = 360 * IZR (l - k)) by (rewrite minus_IZR; lra).
  assert (Hlo : (-1 < l - k)%Z) by (apply lt_IZR; lra).
  assert (Hhi : (l - k < 1)%Z) by (apply lt_IZR; lra).
  assert (Hz : (l - k = 0)%Z) by lia.
  rewrite Hz in Heq. lra.
Qed.

Lemma wind_drift_range_witness :
  congruent_mod_360 90 450 /\ Wind.drift (Wind.calculate_wind 90 450 270 15) = 0.
Proof.
  assert (Hc : congruent_mod_360 90 450) by (exists 1%Z; lra).
  split; [exact Hc |].
  exact (proj2 (proj2 (wind_drift_range 90 450 270 15)) Hc).
Defined.

Lemma trig_period_nat (x : R) (n : nat) :
  cos (x + 2 * INR n * PI) = cos x /\ sin (x + 2 * INR n * PI) = sin x.
Proof. split; [apply cos_period | apply sin_period]. Qed.

Lemma trig_period_Z (x : R) (k : Z) :
  cos (x + 2 * IZR k * PI) = cos x /\ sin (x + 2 * IZR k * PI) = sin x.
Proof.
  destruct (Z_le_gt_dec 0 k) as [Hk | Hk].
  - rewrite <- (Z2Nat.id k Hk), <- INR_IZR_INZ. apply trig_period_nat.
  - assert (Hn : (0 <= - k)%Z) by lia.
    destruct (trig_period_nat (x + 2 * IZR k * PI) (Z.to_nat (- k))) as [Hc Hs].
    rewrite INR_IZR_INZ, (Z2Nat.id _ Hn), opp_IZR in Hc, Hs.
    replace (x + 2 * IZR k * PI + 2 * - IZR k * PI) with x in Hc, Hs by ring.
    split; symmetry; assumption.
Qed.

(** Sine and cosine of an angle in degrees do not see whole turns. *)
Lemma trig_degrees_congruent (a b : R) :
  congruent_mod_360 a b ->
  cos (b * Wind.DEG_TO_RAD) = cos (a * (PI / 180)) /\
  sin (b * Wind.DEG_TO_RAD) = sin (a * (PI / 180)).
Proof.
  intros (k & ->). unfold Wind.DEG_TO_RAD. replace 180.0 with 180 by lra.
  replace ((a + 360 * IZR k) * (PI / 180)) with (a * (PI / 180) + 2 * IZR k * PI)
    by field.
  apply trig_period_Z.
Qed.

(** The relative wind angle that [calculate_wind] feeds to sine and
    cosine. *)
Lemma wind_relative_angle (track heading wind_dir wind_speed : R) :
  let r := Wind.calculate_wind track heading wind_dir wind_speed in
  exists wind_from_relative,
    -180 < wind_from_relative <= 180 /\
    congruent_mod_360 (wind_dir - track) wind_from_relative /\
    Wind.headwind r = - wind_speed * cos (wind_from_relative * Wind.DEG_TO_RAD) /\
    Wind.crosswind r = wind_speed * sin (wind_from_relative * Wind.DEG_TO_RAD).
Proof.
  intros r. subst r. unfold Wind.calculate_wind.
  cbn [Wind.headwind Wind.crosswind].
  pose proof (relative_angle_spec wind_dir track) as Hrel. cbv zeta in Hrel.
  destruct Hrel as [Hrange Hcong].
  eexists. split; [exact Hrange | split; [exact Hcong |]].
  split; reflexivity.
Qed.

(** X21: the components have a closed form in the raw inputs: headwind is
    minus the wind speed times the cosine of (wind_dir - track) degrees,
    crosswind the wind speed times its sine; the normalization steps do
    not change them. *)
Theorem wind_components_closed_form (track heading wind_dir wind_speed : R) :
  let r := Wind.calculate_wind track heading wind_dir wind_speed in
  Wind.headwind r = - wind_speed * cos ((wind_dir - track) * (PI / 180)) /\
  Wind.crosswind r = wind_speed * sin ((wind_dir - track) * (PI / 180)).
Proof.
  intros r. subst r.
  destruct (wind_relative_angle track heading wind_dir wind_speed)
    as (rel & _ & Hcong & Hh & Hc).
  cbv zeta in Hh, Hc.
  destruct (trig_degrees_congruent _ _ Hcong) as [Hcos Hsin].
  rewrite Hh, Hc, Hcos, Hsin.
  split; reflexivity.
Qed.

Lemma wind_offset_trig (track wind_dir offset : R) :
  congruent_mod_360 (track + offset) wind_dir ->
  cos ((wind_dir - track) * (PI / 180)) = cos (offset * (PI / 180)) /\
  sin ((wind_dir - track) * (PI / 180)) = sin (offset * (PI / 180)).
Proof.
  intros (k & ->).
  replace ((track + offset + 360 * IZR k - track) * (PI / 180))
    with (offset * (PI / 180) + 2 * IZR k * PI) by field.
  apply trig_period_Z.
Qed.

(** X22: whatever the track, wind from dead ahead (track + 180) is all
    headwind, wind from dead astern (the track itself) is all tailwind,
    wind from track + 90 is all crosswind from the right and wind from
    track - 90 all crosswind from the left. *)
Theorem wind_cardinal_directions (track heading wind_dir wind_speed : R) :
  let r := Wind.calculate_wind track heading wind_dir wind_speed in
  (congruent_mod_360 (track + 180) wind_dir ->
     Wind.headwind r = wind_speed /\ Wind.crosswind r = 0) /\
  (congruent_mod_360 (track + 0) wind_dir ->
     Wind.headwind r = - wind_speed /\ Wind.crosswind r = 0) /\
  (congruent_mod_360 (track + 90) wind_dir ->
     Wind.headwind r = 0 /\ Wind.crosswind r = wind_speed) /\
  (congruent_mod_360 (track + -90) wind_dir ->
     Wind.headwind r = 0 /\ Wind.crosswind r = - wind_speed).
Proof.
  intros r. subst r.
  destruct (wind_relative_angle track heading wind_dir wind_speed)
    as (rel & _ & Hcong & Hh & Hc).
  cbv zeta in Hh, Hc.
  destruct (trig_degrees_congruent _ _ Hcong) as [Hrcos Hrsin].
  rewrite Hh, Hc, Hrcos, Hrsin. clear Hh Hc Hrcos Hrsin Hcong rel.
  assert (H180 : 180 * (PI / 180) = PI) by field.
  assert (H90 : 90 * (PI / 180) = PI / 2) by field.
  assert (Hm90 : -90 * (PI / 180) = - (PI / 2)) by field.
  split; [| split; [| split]]; intros Hdir;
    destruct (wind_offset_trig _ _ _ Hdir) as [Hcos Hsin]; rewrite Hcos, Hsin.
  - rewrite H180, cos_PI, sin_PI. split; ring.
  - rewrite Rmult_0_l, cos_0, sin_0. split; ring.
  - rewrite H90, cos_PI2, sin_PI2. split; ring.
  - rewrite Hm90, cos_neg, sin_neg, cos_PI2, sin_PI2. split; ring.
Qed.

Lemma wind_cardinal_directions_witness :
  congruent_mod_360 (90 + 180) 270 /\
  Wind.headwind (Wind.calculate_wind 90 85 270 15) = 15 /\
  Wind.crosswind (Wind.calculate_wind 90 85 270 15) = 0.
Proof.
  assert (Hc : congruent_mod_360 (90 + 180) 270) by (exists 0%Z; lra).
  split; [exact Hc |].
  exact (proj1 (wind_cardinal_directions 90 85 270 15) Hc).
Defined.

(** X23: for a non-negative wind speed neither component exceeds the wind
    speed in magnitude. *)
Theorem wind_components_bounded (track heading wind_dir wind_speed : R) :
  0 <= wind_speed ->
  let r := Wind.calculate_wind track heading wind_dir wind_speed in
  Rabs (Wind.headwind r) <= wind_speed /\ Rabs (Wind.crosswind r) <= wind_speed.
Proof.
  intros Hs r. subst r.
  destruct (wind_relative_angle track heading wind_dir wind_speed)
    as (rel & _ & _ & Hh & Hc).
  cbv zeta in Hh, Hc. rewrite Hh, Hc.
  pose proof (COS_bound (rel * Wind.DEG_TO_RAD)) as [Hc1 Hc2].
  pose proof (SIN_bound (rel * Wind.DEG_TO_RAD)) as [Hs1 Hs2].
  split; apply Rabs_le; split; nra.
Qed.

Lemma wind_components_bounded_witness :
  0 <= 15 /\ Rabs (Wind.headwind (Wind.calculate_wind 90 85 270 15)) <= 15.
Proof.
  assert (Hs : 0 <= 15) by lra.
  split; [exact Hs |].
  exact (proj1 (wind_components_bounded 90 85 270 15 Hs)).
Defined.










(** ** JSON output: distinct keys *)

(** X25: each calculator's JSON object has pairwise distinct keys: 8 for
    the turn calculator, 11 for the VNAV calculator, 5 for the wind
    calculator. *)
Theorem json_keys_distinct :
  (forall t, NoDup (keys (Turn.print_json t)) /\ List.length (Turn.print_json t) = 8%nat) /\
  (forall v h, NoDup (keys (Vnav.print_json v h)) /\
               List.length (Vnav.print_json v h) = 11%nat) /\
  (forall w, NoDup (keys (Wind.print_json w)) /\ List.length (Wind.print_json w) = 5%nat).
Proof.
  repeat split; intros;
    try reflexivity;
    unfold keys, Turn.print_json, Vnav.print_json, Wind.print_json;
    cbn [map fst];
    repeat (constructor; [cbn [In]; intuition discriminate |]);
    constructor.
Qed.

(** ** Error reporting of the three programs *)

(** X26: a validation failure writes exactly one line to standard error
    and no usage text: the turn calculator tests the airspeed before the
    bank angle, the VNAV calculator the distance before the groundspeed;
    a first argument that does not parse writes the exception's text
    followed by the usage text. *)
Theorem validation_errors_are_one_line
    (stod : string -> thrown double)
    (nonfinite : list double -> string -> json_value) (program_name : string) :
  (forall args0 args1 args2 (tas_kts bank_deg course_change_deg : R),
     stod args0 = Returned tas_kts ->
     stod args1 = Returned bank_deg ->
     stod args2 = Returned course_change_deg ->
     let o := Turn.main stod nonfinite program_name [args0; args1; args2] in
     (tas_kts <= 0 -> stderr o = ["Error: TAS must be positive"%string]) /\
     (0 < tas_kts -> 85 < Rabs bank_deg ->
        stderr o = ["Error: Bank angle must be between -85 and 85 degrees"%string])) /\
  (forall args0 args1 args2 args3
          (current_alt_ft target_alt_ft distance_nm groundspeed_kts : R),
     stod args0 = Returned current_alt_ft ->
     stod args1 = Returned target_alt_ft ->
     stod args2 = Returned distance_nm ->
     stod args3 = Returned groundspeed_kts ->
     let o := Vnav.main stod nonfinite program_name [args0; args1; args2; args3] in
     (distance_nm < 0 -> stderr o = ["Error: Distance cannot be negative"%string]) /\
     (0 <= distance_nm -> groundspeed_kts <= 0 ->
        stderr o = ["Error: Groundspeed must be positive"%string])) /\
  (forall args0 args1 args2 args3 (track heading wind_dir wind_speed : R),
     stod args0 = Returned track ->
     stod args1 = Returned heading ->
     stod args2 = Returned wind_dir ->
     stod args3 = Returned wind_speed ->
     wind_speed < 0 ->
     exists o,
       Wind.main stod nonfinite program_name [args0; args1; args2; args3] = Exits o /\
       stderr o = ["Error: Wind speed cannot be negative"%string]) /\
  (forall args0 args1 args2 args3 what,
     stod args0 = Raised what ->
     stderr (Turn.main stod nonfinite program_name [args0; args1; args2]) =
       ("Error: " ++ what)%string :: Turn.print_usage program_name /\
     stderr (Vnav.main stod nonfinite program_name [args0; args1; args2; args3]) =
       ("Error: " ++ what)%string :: Vnav.print_usage program_name /\
     exists o,
       Wind.main stod nonfinite program_name [args0; args1; args2; args3] = Exits o /\
       stderr o =
         ("Error parsing arguments: " ++ what)%string :: Wind.print_usage program_name).
Proof.
  split; [| split; [| split]].
  - intros a0 a1 a2 tas bank cc H0 H1 H2 o. subst o.
    unfold Turn.main, Turn.main_try, Turn.parse_double.
    rewrite H0, H1, H2. cbn [bind].
    split.
    + intros Hle.
      destruct (double_le tas 0) eqn:Htas; [reflexivity |].
      apply double_le_finite in Htas. lra.
    + intros Hpos Hbig.
      rewrite (proj2 (double_le_finite tas 0) Hpos).
      destruct (double_gt (double_abs bank) 85) eqn:Hbank; [reflexivity |].
      apply double_abs_gt_finite in Hbank. lra.
  - intros a0 a1 a2 a3 cur tgt d gs H0 H1 H2 H3 o. subst o.
    unfold Vnav.main, Vnav.main_try, Vnav.parse_double.
    rewrite H0, H1, H2, H3. cbn [bind].
    split.
    + intros Hneg.
      destruct (double_lt d 0) eqn:Hd; [reflexivity |].
      apply double_lt_finite in Hd. lra.
    + intros Hnonneg Hle.
      rewrite (proj2 (double_lt_finite d 0) Hnonneg).
      destruct (double_le gs 0) eqn:Hg; [reflexivity |].
      apply double_le_finite in Hg. lra.
  - intros a0 a1 a2 a3 t h w s H0 H1 H2 H3 Hneg.
    unfold Wind.main, Wind.main_try, Wind.parse_double.
    rewrite H0, H1, H2, H3. cbn [bind].
    destruct (double_lt s 0) eqn:Hs.
    + eexists. split; reflexivity.
    + apply double_lt_finite in Hs. lra.
  - intros a0 a1 a2 a3 what H0.
    unfold Turn.main, Turn.main_try, Turn.parse_double,
      Vnav.main, Vnav.main_try, Vnav.parse_double,
      Wind.main, Wind.main_try, Wind.parse_double.
    rewrite H0. cbn [bind stderr].
    split; [reflexivity | split; [reflexivity |]].
    eexists. split; reflexivity.
Qed.

Lemma validation_errors_are_one_line_witness :
  -85 <= 0 /\
  stderr (Turn.main stod_examples (fun _ _ => JNumber NaN) "turn_calculator"
            ["-85"; "250"; "90"]%string) =
    ["Error: TAS must be positive"%string].
Proof.
  assert (H : -85 <= 0) by lra.
  split; [exact H |].
  exact (proj1 (proj1 (validation_errors_are_one_line stod_examples
                         (fun _ _ => JNumber NaN) "turn_calculator")
                  "-85"%string "250"%string "90"%string (-85) 250 90
                  eq_refl eq_refl eq_refl) H).
Defined.

(** ** The turn calculator's exit status *)

Lemma turn_json_keys (nonfinite : list double -> string -> json_value)
    (tas_kts bank_deg course_change_deg : double) :
  keys (Turn.turn_json nonfinite tas_kts bank_deg course_change_deg) = Turn.json_keys.
Proof.
  destruct tas_kts, bank_deg, course_change_deg;
    first [reflexivity | apply keys_print_json_nonfinite].
Qed.

(** X27: the turn calculator exits with code 0, printing one JSON object
    with the eight keys of [print_json] and nothing on standard error,
    exactly when it is given three arguments that all parse, to doubles
    on which neither [tas_kts <= 0] nor [std::abs(bank_deg) > 85] is
    true; in every other case it exits with code 1, has written to
    standard error and has written no JSON.  On finite values the two
    tests pass exactly when [tas_kts > 0] and [|bank_deg| <= 85], and the
    object is then [print_json] of [calculate_turn_performance]; an
    infinite bank angle and an airspeed of minus infinity are rejected, a
    NaN passes both tests. *)
Theorem turn_main_exit_status
    (stod : string -> thrown double)
    (nonfinite : list double -> string -> json_value)
    (program_name : string) (args : list string) :
  let o := Turn.main stod nonfinite program_name args in
  (forall tas_kts bank_deg course_change_deg : double,
     turn_passes stod args tas_kts bank_deg course_change_deg ->
     let object := Turn.turn_json nonfinite tas_kts bank_deg course_change_deg in
     o = {| exit_code := 0; stdout := [object]; stderr := [] |} /\
     keys object = Turn.json_keys) /\
  (forall tas_kts bank_deg course_change_deg : R,
     turn_passes stod args tas_kts bank_deg course_change_deg <->
     turn_accepted stod args tas_kts bank_deg course_change_deg) /\
  (forall tas_kts bank_deg course_change_deg : R,
     turn_accepted stod args tas_kts bank_deg course_change_deg ->
     o = turn_success tas_kts bank_deg course_change_deg) /\
  (double_le NaN 0 = false /\
   double_gt (double_abs NaN) 85 = false /\
   double_le MinusInfinity 0 = true /\
   double_gt (double_abs PlusInfinity) 85 = true /\
   double_gt (double_abs MinusInfinity) 85 = true) /\
  (exit_code o = 0%Z ->
     exists tas_kts bank_deg course_change_deg,
       turn_passes stod args tas_kts bank_deg course_change_deg) /\
  ((forall tas_kts bank_deg course_change_deg,
      ~ turn_passes stod args tas_kts bank_deg course_change_deg) ->
   failure o).
Proof.
  intros o. subst o. split; [| split; [| split; [| split; [| split]]]].
  - intros tas bank cc Hpass object. subst object. split.
    + apply turn_main_passes. exact Hpass.
    + apply turn_json_keys.
  - intros tas bank cc. symmetry. apply turn_accepted_passes.
  - intros tas bank cc Hacc. apply turn_main_accepts. exact Hacc.
  - repeat split; reflexivity.
  - intros Hzero.
    destruct (turn_main_cases stod nonfinite program_name args) as [Hpass | (Hone & _)].
    + exact Hpass.
    + rewrite Hone in Hzero. discriminate.
  - intros Hrej.
    destruct (turn_main_cases stod nonfinite program_name args)
      as [(tas & bank & cc & Hpass) | Hfail].
    + exfalso. exact (Hrej tas bank cc Hpass).
    + exact Hfail.
Qed.

Lemma turn_main_exit_status_witness :
  turn_accepted stod_examples ["250"; "85"; "90"]%string 250 85 90 /\
  turn_accepted stod_examples ["250"; "-85"; "90"]%string 250 (-85) 90 /\
  Turn.main stod_examples (fun _ _ => JNumber NaN) "turn_calculator"
    ["250"; "85"; "90"]%string = turn_success 250 85 90 /\
  Turn.main stod_examples (fun _ _ => JNumber NaN) "turn_calculator"
    ["250"; "-85"; "90"]%string = turn_success 250 (-85) 90 /\
  failure (Turn.main stod_examples (fun _ _ => JNumber NaN) "turn_calculator"
             ["250"; "abc"; "90"]%string).
Proof.
  assert (Hp : turn_accepted stod_examples ["250"; "85"; "90"]%string 250 85 90).
  { exists "250"%string, "85"%string, "90"%string.
    repeat split; try reflexivity; try lra.
    rewrite Rabs_right by lra. lra. }
  assert (Hn : turn_accepted stod_examples ["250"; "-85"; "90"]%string 250 (-85) 90).
  { exists "250"%string, "-85"%string, "90"%string.
    repeat split; try reflexivity; try lra.
    rewrite Rabs_left by lra. lra. }
  assert (Hbad : forall t b c,
             ~ turn_passes stod_examples ["250"; "abc"; "90"]%string t b c).
  { intros t b c (a0 & a1 & a2 & Hargs & _ & H1 & _).
    injection Hargs as <- <- <-. discriminate H1. }
  split; [exact Hp | split; [exact Hn |]].
  split; [| split].
  - exact (proj1 (proj2 (proj2 (turn_main_exit_status stod_examples
                                  (fun _ _ => JNumber NaN) "turn_calculator" _)))
             _ _ _ Hp).
  - exact (proj1 (proj2 (proj2 (turn_main_exit_status stod_examples
                                  (fun _ _ => JNumber NaN) "turn_calculator" _)))
             _ _ _ Hn).
  - exact (proj2 (proj2 (proj2 (proj2 (proj2
             (turn_main_exit_status stod_examples (fun _ _ => JNumber NaN)
                "turn_calculator" _))))) Hbad).
Defined.
